(** * HCS thermal-log processing: a model of [src/utils/excelProcessor.ts]

    The TypeScript module reads one column of a spreadsheet, looks for the
    row whose temperature is closest to an operator-supplied reference
    (the 60-second anchor), derives eight metrics on the resulting time axis,
    computes two physical properties, and appends the results as a new
    column of a template grid.

    JavaScript numbers are IEEE 754 binary64 values; they are modelled by
    Rocq's primitive [float], whose operations are the same binary64
    operations.  Array indices and elapsed times are integers far below
    2^53, on which JavaScript's arithmetic is exact; they are modelled by
    [Z] (and by [nat] where the code only counts upwards from 0). *)

From Stdlib Require Import String ZArith List Floats Lia Bool.
Import ListNotations.

Local Open Scope Z_scope.

(** ** JavaScript numbers *)

Module Js.

(** [Number.MAX_VALUE], the largest finite binary64 value,
    (2^53 - 1) * 2^971 = 1.7976931348623157e308. *)
Definition MAX_VALUE : float := 0x1.fffffffffffffp+1023%float.

(** The global [isNaN] on a number. *)
Definition isNaN (x : float) : bool := negb (x =? x)%float.

(** [a >= b] on numbers: false as soon as one side is NaN. *)
Definition geb (a b : float) : bool := (b <=? a)%float.

(** [a > b] on numbers. *)
Definition gtb (a b : float) : bool := (b <? a)%float.

(** An integer index or time as a number (exact below 2^53). *)
Definition ofZ (z : Z) : float :=
  match z with
  | Z0 => 0%float
  | Zpos _ => of_uint63 (Uint63.of_Z z)
  | Zneg p => (- of_uint63 (Uint63.of_Z (Zpos p)))%float
  end.

End Js.

(** ** Thermal metrics engine *)

(** A metric is [number | string] in the source: a number, or the string
    ["N/A"] when no row qualifies. *)
Inductive Metric (A : Type) : Type :=
| Value (a : A)
| NotAvailable.
Arguments Value {A} a.
Arguments NotAvailable {A}.

(** What a call does: it returns a value or throws an [Error]. *)
Inductive Outcome (A : Type) : Type :=
| Returned (a : A)
| Thrown (message : string).
Arguments Returned {A} a.
Arguments Thrown {A} message.

(** [(number | null)[]]: [None] is [null], the absent marker. *)
Definition NumericColumn : Type := list (option float).

(** [tempData[idx]] for an integer [idx]: [None] when [idx] is outside the
    array (JavaScript's [undefined]). *)
Definition at_index {A : Type} (l : list A) (idx : Z) : option A :=
  if idx <? 0 then None else nth_error l (Z.to_nat idx).

Record ThermalMetrics : Type := {
  timeTo100 : Metric Z;
  timeTo150 : Metric Z;
  timeTo180 : Metric Z;
  timeTo200 : Metric Z;
  tempAt1Min : Metric float;
  tempAt2Min : Metric float;
  tempAt5Min : Metric float;
  tempAt10Min : Metric float
}.

(** The two variables of the anchor search loop. *)
Record AnchorState : Type := {
  anchorIndex : Z;
  minDiff : float
}.

(** [Math.abs(temp - refTempAt60s)]. *)
Definition distance (temp refTempAt60s : float) : float :=
  abs (temp - refTempAt60s)%float.

(** One iteration of the anchor search, at index [i]. *)
Definition anchorStep (refTempAt60s : float) (st : AnchorState) (i : Z)
    (temp : option float) : AnchorState :=
  match temp with
  | Some temp =>
      let diff := distance temp refTempAt60s in
      if (diff <? minDiff st)%float
      then {| anchorIndex := i; minDiff := diff |}
      else st
  | None => st
  end.

(** The iterations from index [i] on, over the rest of the array. *)
Fixpoint anchorLoop (refTempAt60s : float) (rest : NumericColumn) (i : Z)
    (st : AnchorState) : AnchorState :=
  match rest with
  | [] => st
  | temp :: rest' =>
      anchorLoop refTempAt60s rest' (i + 1) (anchorStep refTempAt60s st i temp)
  end.

Definition anchorInit : AnchorState :=
  {| anchorIndex := -1; minDiff := Js.MAX_VALUE |}.

(** The whole search: the final [anchorIndex], [-1] when none was set. *)
Definition findAnchor (tempData : NumericColumn) (refTempAt60s : float) : Z :=
  anchorIndex (anchorLoop refTempAt60s tempData 0 anchorInit).

Definition getTimeForIndex (anchorIndex idx : Z) : Z := 60 + (idx - anchorIndex).
Definition getIndexForTime (anchorIndex time : Z) : Z := anchorIndex + (time - 60).

(** The scan of [findTimeForTemp] from index [i] on. *)
Fixpoint findTimeLoop (anchorIndex : Z) (targetTemp : float)
    (rest : NumericColumn) (i : Z) : Metric Z :=
  match rest with
  | [] => NotAvailable
  | val :: rest' =>
      match val with
      | Some v =>
          if Js.geb v targetTemp
          then Value (getTimeForIndex anchorIndex i)
          else findTimeLoop anchorIndex targetTemp rest' (i + 1)
      | None => findTimeLoop anchorIndex targetTemp rest' (i + 1)
      end
  end.

Definition findTimeForTemp (tempData : NumericColumn) (anchorIndex : Z)
    (targetTemp : float) : Metric Z :=
  findTimeLoop anchorIndex targetTemp tempData 0.

Definition findTempAtTime (tempData : NumericColumn) (anchorIndex : Z)
    (targetTime : Z) : Metric float :=
  let idx := getIndexForTime anchorIndex targetTime in
  if (0 <=? idx) && (idx <? Z.of_nat (length tempData))
  then match at_index tempData idx with
       | Some (Some v) => Value v
       | _ => NotAvailable
       end
  else NotAvailable.

Definition anchorNotFoundMessage : string :=
  "Could not find reference temperature in the data."%string.

Definition processThermalData (tempData : NumericColumn)
    (refTempAt60s : float) : Outcome ThermalMetrics :=
  let anchorIndex := findAnchor tempData refTempAt60s in
  if anchorIndex =? -1
  then Thrown anchorNotFoundMessage
  else Returned {|
    timeTo100 := findTimeForTemp tempData anchorIndex 100%float;
    timeTo150 := findTimeForTemp tempData anchorIndex 150%float;
    timeTo180 := findTimeForTemp tempData anchorIndex 180%float;
    timeTo200 := findTimeForTemp tempData anchorIndex 200%float;
    tempAt1Min := findTempAtTime tempData anchorIndex 60;
    tempAt2Min := findTempAtTime tempData anchorIndex 120;
    tempAt5Min := findTempAtTime tempData anchorIndex 300;
    tempAt10Min := findTempAtTime tempData anchorIndex 600
  |}.

(** ** Physical properties calculator *)

(** The records of [src/types], as [App] builds them and this module reads
    them. *)
Module Types.

Record PhysicalInputs : Type := {
  thickness : float;
  weightRaw : float;
  width : float;
  length : float;
  heatSourceTemp : string;
  pressure : string;
  evaluationDate : string;
  remarks : string
}.

Record CalculatedProperties : Type := {
  weightGsm : float;
  density : float
}.

End Types.

Definition areaM2 (inputs : Types.PhysicalInputs) : float :=
  ((Types.width inputs * Types.length inputs) / 1000000)%float.

Definition massKg (inputs : Types.PhysicalInputs) : float :=
  (Types.weightRaw inputs / 1000)%float.

Definition thicknessM (inputs : Types.PhysicalInputs) : float :=
  (Types.thickness inputs / 1000)%float.

Definition volumeM3 (inputs : Types.PhysicalInputs) : float :=
  (areaM2 inputs * thicknessM inputs)%float.

Definition calculatePhysicalProperties (inputs : Types.PhysicalInputs)
    : Types.CalculatedProperties :=
  let weightGsm :=
    if Js.gtb (areaM2 inputs) 0
    then (Types.weightRaw inputs / areaM2 inputs)%float
    else 0%float in
  let density :=
    if Js.gtb (volumeM3 inputs) 0
    then (massKg inputs / volumeM3 inputs)%float
    else 0%float in
  {| Types.weightGsm := weightGsm; Types.density := density |}.

(** ** Grids of cells *)

(** A cell of a parsed sheet ([any] in the source).  [CUndefined] is what
    reading an empty slot of a row gives. *)
Inductive Cell : Type :=
| CUndefined
| CNull
| CBool (b : bool)
| CNum (n : float)
| CStr (s : string).

Definition Row : Type := list Cell.

(** What [XLSX.utils.sheet_to_json(worksheet, { header: 1 })] returns: an
    array with one array per sheet row. *)
Definition Grid : Type := list Row.

(** [row[colIndex]]: [undefined] outside the row. *)
Definition cellAt (row : Row) (colIndex : Z) : Cell :=
  match at_index row colIndex with
  | Some c => c
  | None => CUndefined
  end.

(** ** Tabular reader *)

Section Reader.

(** The two conversions of the language that [parseFloat] goes through:
    a number printed as a string, and the longest decimal prefix of a
    string read as a number (NaN when there is none). *)
Variable numberToString : float -> string.
Variable parseFloatString : string -> float.

(** [parseFloat(val)]: the argument is first converted to a string; the
    strings of [undefined], [null] and the booleans start no decimal
    literal. *)
Definition parseFloat (val : Cell) : float :=
  match val with
  | CStr s => parseFloatString s
  | CNum n => parseFloatString (numberToString n)
  | CUndefined | CNull | CBool _ => nan
  end.

(** The callback of [jsonData.map] in [readExcelColumn]. *)
Definition coerceRow (colIndex : Z) (row : Row) : option float :=
  let val := cellAt row colIndex in
  let num := parseFloat val in
  if Js.isNaN num then None else Some num.

(** [readExcelColumn] once the workbook is parsed: the column extracted
    from the rows of the first sheet. *)
Definition readExcelColumn (jsonData : Grid) (colIndex : Z) : NumericColumn :=
  map (coerceRow colIndex) jsonData.

End Reader.

(** The default [colIndex] of [readExcelColumn]. *)
Definition defaultColIndex : Z := 3.

(** ** Template merge *)

(** The array [sheetData] while it is being updated: a slot holds a row, or
    nothing ([None]: a hole of the array, read as [undefined]). *)
Definition SheetData : Type := list (option Row).

Definition ofGrid (g : Grid) : SheetData := map Some g.

(** [sheetData[i]] when it is truthy, that is, when it is a row. *)
Definition rowAt (sheetData : SheetData) (i : nat) : option Row :=
  match nth_error sheetData i with
  | Some (Some r) => Some r
  | _ => None
  end.

(** [sheetData[i] = row]: an assignment beyond the end extends the array,
    leaving holes in between. *)
Definition setRow (sheetData : SheetData) (i : nat) (row : Row) : SheetData :=
  if (i <? List.length sheetData)%nat
  then firstn i sheetData ++ Some row :: skipn (S i) sheetData
  else sheetData ++ repeat None (i - List.length sheetData) ++ [Some row].

(** The first loop of the merge, from index [i] on, [k] iterations left. *)
Fixpoint maxColLoop (sheetData : SheetData) (k i maxColCount : nat) : nat :=
  match k with
  | O => maxColCount
  | S k' =>
      maxColLoop sheetData k' (S i)
        match rowAt sheetData i with
        | Some r => Nat.max maxColCount (List.length r)
        | None => maxColCount
        end
  end.

(** [while (row.length < maxColCount) row.push(null)], at most [fuel]
    iterations. *)
Fixpoint padLoop (fuel : nat) (row : Row) (maxColCount : nat) : Row :=
  match fuel with
  | O => row
  | S fuel' =>
      if (List.length row <? maxColCount)%nat
      then padLoop fuel' (row ++ [CNull]) maxColCount
      else row
  end.

(** The loop runs [maxColCount - row.length] times; [maxColCount] is fuel
    enough. *)
Definition padRow (row : Row) (maxColCount : nat) : Row :=
  padLoop maxColCount row maxColCount.

(** One iteration of the second loop, for the value [v] of row [i]. *)
Definition appendStep (maxColCount : nat) (sheetData : SheetData) (i : nat)
    (v : Cell) : SheetData :=
  let sheetData1 :=
    match rowAt sheetData i with
    | Some _ => sheetData
    | None => setRow sheetData i []
    end in
  match rowAt sheetData1 i with
  | Some row => setRow sheetData1 i (padRow row maxColCount ++ [v])
  | None => sheetData1
  end.

(** The second loop, from index [i] on, over the values left. *)
Fixpoint appendLoop (maxColCount : nat) (sheetData : SheetData) (i : nat)
    (values : list Cell) : SheetData :=
  match values with
  | [] => sheetData
  | v :: values' =>
      appendLoop maxColCount (appendStep maxColCount sheetData i v) (S i) values'
  end.

Definition maxColCountOf (sheetData : SheetData) (columnValues : list Cell) : nat :=
  maxColLoop sheetData (List.length columnValues) 0 0.

(** The merge step of [appendToTemplate]: both loops. *)
Definition mergeColumn (sheetData : SheetData) (columnValues : list Cell)
    : SheetData :=
  appendLoop (maxColCountOf sheetData columnValues) sheetData 0 columnValues.

Definition timeCell (m : Metric Z) : Cell :=
  match m with
  | Value t => CNum (Js.ofZ t)
  | NotAvailable => CStr "N/A"
  end.

Definition tempCell (m : Metric float) : Cell :=
  match m with
  | Value t => CNum t
  | NotAvailable => CStr "N/A"
  end.

Section Template.

(** [Number(x.toFixed(2))]: the number read back from its two-decimal
    print. *)
Variable toFixed2 : float -> float.

(** The sixteen values of the new column, in the order of the source. *)
Definition columnValues (sampleName : string) (metrics : ThermalMetrics)
    (physical : Types.PhysicalInputs)
    (calculated : Types.CalculatedProperties) : list Cell :=
  [ CStr (Types.evaluationDate physical);
    CStr sampleName;
    CNum (toFixed2 (Types.weightGsm calculated));
    CNum (Types.thickness physical);
    CNum (toFixed2 (Types.density calculated));
    CStr (Types.heatSourceTemp physical);
    CStr (Types.pressure physical);
    timeCell (timeTo100 metrics);
    timeCell (timeTo150 metrics);
    timeCell (timeTo180 metrics);
    timeCell (timeTo200 metrics);
    tempCell (tempAt1Min metrics);
    tempCell (tempAt2Min metrics);
    tempCell (tempAt5Min metrics);
    tempCell (tempAt10Min metrics);
    CStr (Types.remarks physical) ].

(** [appendToTemplate] between the parse of the template and the write of
    the workbook: the grid handed to [aoa_to_sheet]. *)
Definition appendToTemplate (templateGrid : Grid) (sampleName : string)
    (metrics : ThermalMetrics) (physical : Types.PhysicalInputs)
    (calculated : Types.CalculatedProperties) : SheetData :=
  mergeColumn (ofGrid templateGrid)
    (columnValues sampleName metrics physical calculated).

End Template.

(** ** Strings of the language *)

Module JsString.

(** [!s] on a string: true of the empty string only. *)
Definition isEmpty (s : string) : bool :=
  match s with
  | EmptyString => true
  | String _ _ => false
  end.

(** The character of a decimal digit. *)
Definition digitChar (d : nat) : Ascii.ascii := Ascii.ascii_of_nat (48 + d).

(** The decimal print of a non-negative integer, most significant digit
    first, by repeated division; [fuel] bounds the number of digits. *)
Fixpoint toStringFuel (fuel n : nat) : string :=
  match fuel with
  | O => EmptyString
  | S fuel' =>
      if (n <? 10)%nat then String (digitChar n) EmptyString
      else (toStringFuel fuel' (n / 10) ++ String (digitChar (n mod 10)) EmptyString)%string
  end.

(** [n.toString()] and [String(n)] for a non-negative integer [n]; a number
    has at most [n + 1] digits. *)
Definition toString (n : nat) : string := toStringFuel (S n) n.

(** [s.slice(-2)]: the last two characters, all of [s] when it is shorter. *)
Definition sliceLast2 (s : string) : string :=
  substring (String.length s - 2) 2 s.

(** [s.padStart(2, '0')]. *)
Definition padStart2 (s : string) : string :=
  match String.length s with
  | O => String (digitChar 0) (String (digitChar 0) EmptyString)
  | S O => String (digitChar 0) s
  | _ => s
  end.

End JsString.

(** ** The application *)

(** An uploaded file: what the components show of it, and its bytes. *)
Record File : Type := {
  fileName : string;
  fileSize : nat;
  fileBytes : string
}.

(** The file box of [FileUpload]: its two pieces of state and its three
    handlers.  A handler returns the new state and the calls it makes to
    [onFileSelect], in order. *)
Module FileUpload.

Record State : Type := {
  file : option File;
  isDragging : bool
}.

Definition initial : State := {| file := None; isDragging := false |}.

(** [e.target.files && e.target.files[0]]: the first file of the list, when
    there is a list and it is not empty. *)
Definition firstFile (files : list File) : option File := hd_error files.

Definition handleFileChange (st : State) (files : list File)
    : State * list (option File) :=
  match firstFile files with
  | Some selectedFile =>
      ({| file := Some selectedFile; isDragging := isDragging st |},
       [Some selectedFile])
  | None => (st, [])
  end.

Definition handleDrop (st : State) (files : list File)
    : State * list (option File) :=
  match firstFile files with
  | Some droppedFile =>
      ({| file := Some droppedFile; isDragging := false |}, [Some droppedFile])
  | None => ({| file := file st; isDragging := false |}, [])
  end.

Definition clearFile (st : State) : State * list (option File) :=
  ({| file := None; isDragging := isDragging st |}, [None]).

(** What can happen to the box. *)
Inductive Event : Type :=
| FileChange (files : list File)
| Drop (files : list File)
| Clear
| DragOver
| DragLeave.

Definition handle (st : State) (e : Event) : State * list (option File) :=
  match e with
  | FileChange files => handleFileChange st files
  | Drop files => handleDrop st files
  | Clear => clearFile st
  | DragOver => ({| file := file st; isDragging := true |}, [])
  | DragLeave => ({| file := file st; isDragging := false |}, [])
  end.

(** The owner of the box keeps the last file it was told of
    ([onFileSelect] is the setter of its state). *)
Definition notify (selected : option File) (calls : list (option File))
    : option File :=
  fold_left (fun _ call => call) calls selected.

(** The box and its owner's file, after a sequence of events. *)
Fixpoint run (events : list Event) (st : State) (selected : option File)
    : State * option File :=
  match events with
  | [] => (st, selected)
  | e :: events' =>
      let '(st', calls) := handle st e in
      run events' st' (notify selected calls)
  end.

End FileUpload.

Module App.

Inductive ProcessStatus : Type := IDLE | PROCESSING | SUCCESS | ERROR.

Module ProcessingResult.
Record t : Type := {
  sampleName : string;
  thermalMetrics : ThermalMetrics;
  physicalInputs : Types.PhysicalInputs;
  calculatedProps : Types.CalculatedProperties;
  downloadUrl : string;
  newFilename : string
}.
End ProcessingResult.

(** The state of [App]: the three pieces of processing state, the two
    files, and the text of the form fields. *)
Record State : Type := {
  status : ProcessStatus;
  result : option ProcessingResult.t;
  errorMsg : option string;
  sourceFile : option File;
  templateFile : option File;
  sampleName : string;
  refTemp : string;
  evaluationDate : string;
  remarks : string;
  thickness : string;
  weightRaw : string;
  width : string;
  length : string;
  heatSourceTemp : string;
  pressure : string
}.

(** The day of [new Date()]: [getFullYear()], [getMonth()] (from 0) and
    [getDate()]. *)
Record Today : Type := {
  getFullYear : nat;
  getMonth : nat;
  getDate : nat
}.

(** The state with its three pieces of processing state replaced. *)
Definition withProcessing (st : State) (status' : ProcessStatus)
    (result' : option ProcessingResult.t) (errorMsg' : option string) : State :=
  {| status := status'; result := result'; errorMsg := errorMsg';
     sourceFile := sourceFile st; templateFile := templateFile st;
     sampleName := sampleName st; refTemp := refTemp st;
     evaluationDate := evaluationDate st; remarks := remarks st;
     thickness := thickness st; weightRaw := weightRaw st;
     width := width st; length := length st;
     heatSourceTemp := heatSourceTemp st; pressure := pressure st |}.

(** [setErrorMsg(msg)] alone. *)
Definition setErrorMsg (st : State) (msg : string) : State :=
  withProcessing st (status st) (result st) (Some msg).

Definition missingFilesMessage : string :=
  "Please upload both the Source Log and Template files."%string.
Definition missingFieldsMessage : string :=
  "Please fill in all sample details and parameters."%string.
Definition invalidNumbersMessage : string :=
  "Please ensure numeric fields contain valid numbers."%string.
Definition unknownErrorMessage : string :=
  "An unknown error occurred during processing."%string.

(** The prefix of the report's file name (a text in Korean, here as its
    UTF-8 bytes). *)
Definition reportPrefix : string := "HCS결과 요약_"%string.

(** The file name of the report for the day [now]. *)
Definition newFilenameOf (now : Today) : string :=
  let yy := JsString.sliceLast2 (JsString.toString (getFullYear now)) in
  let mm := JsString.padStart2 (JsString.toString (getMonth now + 1)) in
  let dd := JsString.padStart2 (JsString.toString (getDate now)) in
  (reportPrefix ++ yy ++ mm ++ dd ++ ".xlsx")%string.

(** What the page renders of the processing state: the error box, under
    [status === ERROR] only, and the result panel, under
    [status === SUCCESS && result]. *)
Definition renderedError (st : State) : option string :=
  match status st with
  | ERROR => errorMsg st
  | _ => None
  end.

Definition renderedResult (st : State) : option ProcessingResult.t :=
  match status st with
  | SUCCESS => result st
  | _ => None
  end.

Section Run.

(** The world around a run: the first sheet of a file as a grid, or the
    error that reading or parsing the file ends with; the conversions of
    numbers; the URL made for the written workbook; the current day. *)
Variable sheetOf : File -> Outcome Grid.
Variable numberToString : float -> string.
Variable parseFloatString : string -> float.
Variable toFixed2 : float -> float.
Variable urlOf : File -> SheetData -> string.
Variable now : Today.

(** [await readExcelColumn(sourceFile)], with the default column. *)
Definition readSourceColumn (source : File) : Outcome NumericColumn :=
  match sheetOf source with
  | Returned jsonData =>
      Returned (readExcelColumn numberToString parseFloatString jsonData
                  defaultColIndex)
  | Thrown message => Thrown message
  end.

(** [await appendToTemplate(...)] followed by [URL.createObjectURL]. *)
Definition writeReport (template : File) (sampleName : string)
    (metrics : ThermalMetrics) (physical : Types.PhysicalInputs)
    (calculated : Types.CalculatedProperties) : Outcome string :=
  match sheetOf template with
  | Returned templateGrid =>
      Returned (urlOf template
                  (appendToTemplate toFixed2 templateGrid sampleName metrics
                     physical calculated))
  | Thrown message => Thrown message
  end.

(** The "basic validation" at the head of [handleProcess]: the message of
    the first check that fails. *)
Definition validate (st : State) : option string :=
  match sourceFile st, templateFile st with
  | Some _, Some _ =>
      if JsString.isEmpty (sampleName st) || JsString.isEmpty (refTemp st)
         || JsString.isEmpty (thickness st) || JsString.isEmpty (weightRaw st)
         || JsString.isEmpty (width st) || JsString.isEmpty (length st)
         || JsString.isEmpty (evaluationDate st)
      then Some missingFieldsMessage
      else if existsb Js.isNaN
                [parseFloatString (refTemp st); parseFloatString (thickness st);
                 parseFloatString (weightRaw st); parseFloatString (width st);
                 parseFloatString (length st)]
      then Some invalidNumbersMessage
      else None
  | _, _ => Some missingFilesMessage
  end.

Definition physicalInputsOf (st : State) : Types.PhysicalInputs :=
  {| Types.thickness := parseFloatString (thickness st);
     Types.weightRaw := parseFloatString (weightRaw st);
     Types.width := parseFloatString (width st);
     Types.length := parseFloatString (length st);
     Types.heatSourceTemp := heatSourceTemp st;
     Types.pressure := pressure st;
     Types.evaluationDate := evaluationDate st;
     Types.remarks := remarks st |}.

(** The [catch] of [handleProcess]: [err.message], or the default text
    when the error has none. *)
Definition failed (st : State) (message : string) : State :=
  withProcessing st ERROR None
    (Some (if JsString.isEmpty message then unknownErrorMessage else message)).

(** The body of the [try] of [handleProcess], run to its end. *)
Definition process (st : State) (source template : File) : State :=
  let physicalInputs := physicalInputsOf st in
  let calculatedProps := calculatePhysicalProperties physicalInputs in
  match readSourceColumn source with
  | Thrown message => failed st message
  | Returned tempData =>
      match processThermalData tempData (parseFloatString (refTemp st)) with
      | Thrown message => failed st message
      | Returned thermalMetrics =>
          match writeReport template (sampleName st) thermalMetrics
                  physicalInputs calculatedProps with
          | Thrown message => failed st message
          | Returned downloadUrl =>
              withProcessing st SUCCESS
                (Some {| ProcessingResult.sampleName := sampleName st;
                         ProcessingResult.thermalMetrics := thermalMetrics;
                         ProcessingResult.physicalInputs := physicalInputs;
                         ProcessingResult.calculatedProps := calculatedProps;
                         ProcessingResult.downloadUrl := downloadUrl;
                         ProcessingResult.newFilename := newFilenameOf now |})
                None
          end
      end
  end.

(** [handleProcess], from the click to the end of the run: the state it
    leaves.  A failed validation sets the message and nothing else; a run
    that starts first clears message and result (the status is PROCESSING
    until the run ends). *)
Definition handleProcess (st : State) : State :=
  match validate st with
  | Some msg => setErrorMsg st msg
  | None =>
      match sourceFile st, templateFile st with
      | Some source, Some template =>
          process (withProcessing st PROCESSING None None) source template
      | _, _ => setErrorMsg st missingFilesMessage
      end
  end.

End Run.

(** The state of a page that has just loaded, but for the date field. *)
Definition initial (evaluationDate : string) : State :=
  {| status := IDLE; result := None; errorMsg := None;
     sourceFile := None; templateFile := None;
     sampleName := EmptyString; refTemp := EmptyString;
     evaluationDate := evaluationDate; remarks := EmptyString;
     thickness := EmptyString; weightRaw := EmptyString;
     width := EmptyString; length := EmptyString;
     heatSourceTemp := EmptyString; pressure := EmptyString |}.

End App.

(** ** Vocabulary of the statements *)

(** Row [j] of the column holds the number [w]. *)
Definition present (col : NumericColumn) (j : Z) (w : float) : Prop :=
  at_index col j = Some (Some w).

(** Some row of the column holds a number. *)
Definition hasPresent (col : NumericColumn) : Prop :=
  exists j w, present col j w.

(** Every entry of the column is the absent marker. *)
Definition allAbsent (col : NumericColumn) : Prop :=
  forall j x, at_index col j = Some x -> x = None.

(** What the anchor search has established once the rows of [seen] are
    behind it: either nothing was selected, the running minimum is still
    [Number.MAX_VALUE] and no number seen lies strictly below it; or the
    selected row holds a number whose distance is the running minimum, no
    number seen is strictly closer, and every earlier number is strictly
    farther or incomparable. *)
Definition AnchorInv (refTempAt60s : float) (seen : NumericColumn)
    (st : AnchorState) : Prop :=
  (anchorIndex st = -1 /\ minDiff st = Js.MAX_VALUE /\
   forall j w, present seen j w ->
     (distance w refTempAt60s <? Js.MAX_VALUE)%float = false)
  \/
  (exists v, present seen (anchorIndex st) v /\
     minDiff st = distance v refTempAt60s /\
     (distance v refTempAt60s <? Js.MAX_VALUE)%float = true /\
     (forall j w, present seen j w ->
        (distance w refTempAt60s <? distance v refTempAt60s)%float = false) /\
     (forall j w, j < anchorIndex st -> present seen j w ->
        (distance w refTempAt60s <=? distance v refTempAt60s)%float = false)).

(** [r] is what a scan for the first row, from index 0, whose number is
    at least [targetTemp] must give when index [anchorIndex] is second 60. *)
Definition FirstCrossing (col : NumericColumn) (anchorIndex : Z)
    (targetTemp : float) (r : Metric Z) : Prop :=
  match r with
  | Value t =>
      exists i v, present col i v /\ Js.geb v targetTemp = true /\
        (forall j w, j < i -> present col j w -> Js.geb w targetTemp = false) /\
        t = 60 + (i - anchorIndex)
  | NotAvailable =>
      forall j w, present col j w -> Js.geb w targetTemp = false
  end.

(** [r] is the sample at the index that second [targetTime] maps to: the
    number stored there, or "not available" when the index is outside the
    column or the entry is absent. *)
Definition SampleAt (col : NumericColumn) (anchorIndex targetTime : Z)
    (r : Metric float) : Prop :=
  let idx := anchorIndex + (targetTime - 60) in
  match r with
  | Value v => 0 <= idx < Z.of_nat (List.length col) /\ present col idx v
  | NotAvailable =>
      ~ (0 <= idx < Z.of_nat (List.length col)) \/ at_index col idx = Some None
  end.

(** The columns of the worked examples. *)
Definition exampleAnchorColumn : NumericColumn :=
  [Some 18; Some 20; Some 19; None; Some 25]%float.

Definition exampleRampColumn : NumericColumn :=
  [Some 90; Some 95; Some 100; Some 105; Some 110]%float.

(** Measurements for the worked examples of the physical properties; the
    text fields play no part in the computation. *)
Definition measurements (thickness weightRaw width length : float)
    : Types.PhysicalInputs :=
  {| Types.thickness := thickness;
     Types.weightRaw := weightRaw;
     Types.width := width;
     Types.length := length;
     Types.heatSourceTemp := EmptyString;
     Types.pressure := EmptyString;
     Types.evaluationDate := EmptyString;
     Types.remarks := EmptyString |}.

(** A number that is a zero of either sign, or NaN: what a product or a
    quotient with a zero numerator can be. *)
Definition zeroOrNaN (a : float) : Prop :=
  (exists s, Prim2SF a = S754_zero s) \/ Prim2SF a = S754_nan.

(** The row of index [i] as the merge finds it: the existing row, or the
    empty row it creates when there is none. *)
Definition rowOrEmpty (sheetData : SheetData) (i : nat) : Row :=
  match rowAt sheetData i with
  | Some r => r
  | None => []
  end.

(** The template of the worked example of the merge: rows of lengths 3, 1
    and 0, and a five-value column to append. *)
Definition exampleTemplate : SheetData :=
  [Some [CStr "a"; CStr "b"; CStr "c"]; Some [CStr "d"]; Some []].

Definition exampleValues : list Cell :=
  [CStr "v0"; CStr "v1"; CStr "v2"; CStr "v3"; CStr "v4"].

(** One metric is reached no later than another: when the second is a
    time, the first is a time too, and not a later one. *)
Definition ReachedNoLater (r1 r2 : Metric Z) : Prop :=
  match r2 with
  | Value t2 => exists t1, r1 = Value t1 /\ t1 <= t2
  | NotAvailable => True
  end.

(** The state of the anchor search when all rows move [d] places down: a
    selected index moves with them, the mark [-1] of "none yet" stays. *)
Definition shiftAnchor (d : Z) (st : AnchorState) : AnchorState :=
  {| anchorIndex := if anchorIndex st =? -1 then -1 else anchorIndex st + d;
     minDiff := minDiff st |}.

(** A column between [n] leading and [k] trailing absent entries: a sheet
    with header rows above the samples and blank rows below. *)
Definition framed (n k : nat) (col : NumericColumn) : NumericColumn :=
  repeat None n ++ col ++ repeat None k.

(** A binary64 value that is a zero or a finite non-zero number: neither
    NaN nor an infinity. *)
Definition finiteSF (x : spec_float) : bool :=
  match x with
  | S754_zero _ | S754_finite _ _ _ => true
  | _ => false
  end.

(** The selected row is a closest one, and the earliest of them: its
    distance to the reference is at most that of every number of the
    column, and strictly less than that of every number above it. *)
Definition ClosestEarliest (col : NumericColumn) (refTempAt60s : float)
    (a : Z) : Prop :=
  exists v, present col a v /\
    (forall j w, present col j w ->
       (distance v refTempAt60s <=? distance w refTempAt60s)%float = true) /\
    (forall j w, j < a -> present col j w ->
       (distance v refTempAt60s <? distance w refTempAt60s)%float = true).

(** A dimension that cannot give an area or a volume: a zero of either
    sign, or NaN. *)
Definition degenerate (x : float) : Prop :=
  (x =? 0)%float = true \/ Js.isNaN x = true.

(** The two characters of a number below 100, tens first. *)
Definition twoDigits (n : nat) : string :=
  String (JsString.digitChar (n / 10))
    (String (JsString.digitChar (n mod 10)) EmptyString).

(** Two states of the application with the same processing state (status,
    result and message): what a change of a form field or of a file leaves. *)
Definition sameProcessing (st st' : App.State) : Prop :=
  App.status st' = App.status st /\ App.result st' = App.result st /\
  App.errorMsg st' = App.errorMsg st.

(** The states the application can be in between two runs: the page as
    loaded, then any changes of the form and any runs, each run in the
    world of its moment. *)
Inductive Reachable : App.State -> Prop :=
| reach_initial (evaluationDate : string) :
    Reachable (App.initial evaluationDate)
| reach_edit (st st' : App.State) :
    Reachable st -> sameProcessing st st' -> Reachable st'
| reach_run (sheetOf : File -> Outcome Grid)
    (numberToString : float -> string) (parseFloatString : string -> float)
    (toFixed2 : float -> float) (urlOf : File -> SheetData -> string)
    (now : App.Today) (st : App.State) :
    Reachable st ->
    Reachable (App.handleProcess sheetOf numberToString parseFloatString
                 toFixed2 urlOf now st).

(** A file, a sheet and a form for the worked examples of the application:
    a log of three rows with the samples in the fourth column. *)
Definition exampleFile : File :=
  {| fileName := "log.xlsx"; fileSize := 3; fileBytes := "log" |}.

Definition exampleSheet : Grid :=
  [ [CStr "t"; CNull; CNull; CStr "temp"];
    [CNum 0; CNull; CNull; CNum 18];
    [CNum 1; CNull; CNull; CNum 20] ]%float.

Definition exampleForm : App.State :=
  {| App.status := App.IDLE; App.result := None; App.errorMsg := None;
     App.sourceFile := Some exampleFile; App.templateFile := Some exampleFile;
     App.sampleName := "S1"; App.refTemp := "19";
     App.evaluationDate := "2026-11-03"; App.remarks := EmptyString;
     App.thickness := "1"; App.weightRaw := "500";
     App.width := "1000"; App.length := "1000";
     App.heatSourceTemp := EmptyString; App.pressure := EmptyString |}.

(** A stand-in for the parse of a decimal text, enough for the examples:
    the texts of the example form, NaN for anything else. *)
Definition exampleParse (s : string) : float :=
  if String.eqb s "19" then 19%float
  else if String.eqb s "1" then 1%float
  else if String.eqb s "500" then 500%float
  else if String.eqb s "1000" then 1000%float
  else if String.eqb s "18" then 18%float
  else if String.eqb s "20" then 20%float
  else nan.

(** Its companion print of a number: the texts of 18 and 20. *)
Definition examplePrint (n : float) : string :=
  if (n =? 18)%float then "18"%string
  else if (n =? 20)%float then "20"%string
  else EmptyString.

Definition exampleToday : App.Today :=
  {| App.getFullYear := 2026; App.getMonth := 10; App.getDate := 3 |}.

(** * Properties *)

(** ** The order of binary64 values *)

Module FloatOrder.

Ltac cmp_cases :=
  repeat match goal with
  | |- context [Z.compare ?a ?b] => destruct (Z.compare_spec a b); subst
  | H : context [Z.compare ?a ?b] |- _ => destruct (Z.compare_spec a b); subst
  | |- context [Pos.compare_cont Eq ?a ?b] =>
      change (Pos.compare_cont Eq a b) with (Pos.compare a b);
      destruct (Pos.compare_spec a b); subst
  | H : context [Pos.compare_cont Eq ?a ?b] |- _ =>
      change (Pos.compare_cont Eq a b) with (Pos.compare a b) in H;
      destruct (Pos.compare_spec a b); subst
  end.

Ltac sf_order :=
  unfold SFltb, SFleb, SFeqb, SFcompare; intros;
  repeat match goal with
  | s : bool |- _ => destruct s
  end;
  simpl in *; try reflexivity; try discriminate;
  cmp_cases; simpl in *; try reflexivity; try discriminate; try lia.

Lemma SFltb_irrefl (x : spec_float) : SFltb x x = false.
Proof. destruct x; sf_order. Qed.

Lemma SFltb_trans (x y z : spec_float) :
  SFltb x y = true -> SFltb y z = true -> SFltb x z = true.
Proof. destruct x, y, z; sf_order. Qed.

Lemma SFleb_ltb_trans (x y z : spec_float) :
  SFleb x y = true -> SFltb y z = true -> SFltb x z = true.
Proof. destruct x, y, z; sf_order. Qed.

Lemma SFltb_false_leb (x y : spec_float) :
  SFeqb x x = true -> SFeqb y y = true -> SFltb x y = false -> SFleb y x = true.
Proof. destruct x, y; sf_order. Qed.

Lemma SFltb_eqb_refl (x y : spec_float) : SFltb x y = true -> SFeqb x x = true.
Proof. destruct x, y; sf_order. Qed.

(** The same facts on primitive floats. *)

Lemma ltb_irrefl (x : float) : (x <? x)%float = false.
Proof. rewrite FloatAxioms.ltb_spec. apply SFltb_irrefl. Qed.

Lemma ltb_trans (x y z : float) :
  (x <? y)%float = true -> (y <? z)%float = true -> (x <? z)%float = true.
Proof. rewrite !FloatAxioms.ltb_spec. apply SFltb_trans. Qed.

Lemma leb_ltb_trans (x y z : float) :
  (x <=? y)%float = true -> (y <? z)%float = true -> (x <? z)%float = true.
Proof. rewrite FloatAxioms.leb_spec, !FloatAxioms.ltb_spec. apply SFleb_ltb_trans. Qed.

(** Between two numbers that are not NaN, "not less" is "greater or
    equal". *)
Lemma ltb_false_leb (x y : float) :
  Js.isNaN x = false -> Js.isNaN y = false ->
  (x <? y)%float = false -> (y <=? x)%float = true.
Proof.
  unfold Js.isNaN. rewrite !FloatAxioms.eqb_spec, FloatAxioms.ltb_spec, FloatAxioms.leb_spec.
  intros Hx Hy. apply negb_false_iff in Hx, Hy.
  now apply SFltb_false_leb.
Qed.

(** What is strictly below something is not NaN. *)
Lemma ltb_not_NaN (x y : float) : (x <? y)%float = true -> Js.isNaN x = false.
Proof.
  unfold Js.isNaN. rewrite FloatAxioms.eqb_spec, FloatAxioms.ltb_spec.
  intros H. now rewrite (SFltb_eqb_refl _ _ H).
Qed.

Lemma ltb_not_leb (x y z : float) :
  (x <? z)%float = false -> (y <? z)%float = true -> (x <=? y)%float = false.
Proof.
  intros Hxz Hyz. destruct (x <=? y)%float eqn:E; [|reflexivity].
  rewrite (leb_ltb_trans x y z E Hyz) in Hxz. discriminate.
Qed.

Lemma ltb_not_ltb (x y z : float) :
  (x <? z)%float = false -> (y <? z)%float = true -> (x <? y)%float = false.
Proof.
  intros Hxz Hyz. destruct (x <? y)%float eqn:E; [|reflexivity].
  rewrite (ltb_trans x y z E Hyz) in Hxz. discriminate.
Qed.

End FloatOrder.

(** ** Reading an array at an integer index *)

Lemma at_index_nil {A : Type} (j : Z) : at_index (@nil A) j = None.
Proof.
  unfold at_index. destruct (j <? 0); [reflexivity|].
  now destruct (Z.to_nat j).
Qed.

Lemma at_index_range {A : Type} (l : list A) (j : Z) (x : A) :
  at_index l j = Some x -> 0 <= j < Z.of_nat (List.length l).
Proof.
  unfold at_index. destruct (Z.ltb_spec j 0); [discriminate|].
  intros E. assert (Z.to_nat j < List.length l)%nat.
  { apply nth_error_Some. congruence. }
  lia.
Qed.

Lemma at_index_snoc {A : Type} (l : list A) (a : A) (j : Z) (x : A) :
  at_index (l ++ [a]) j = Some x ->
  at_index l j = Some x \/ (j = Z.of_nat (List.length l) /\ x = a).
Proof.
  intros E. pose proof (at_index_range _ _ _ E) as R.
  rewrite length_app in R. simpl in R.
  unfold at_index in *. destruct (Z.ltb_spec j 0); [discriminate|].
  destruct (Nat.lt_ge_cases (Z.to_nat j) (List.length l)) as [Hlt|Hge].
  - left. now rewrite nth_error_app1 in E.
  - right. rewrite nth_error_app2 in E by exact Hge.
    assert (Z.to_nat j = List.length l) as Hj by lia.
    rewrite Hj, Nat.sub_diag in E. simpl in E.
    split; [lia|congruence].
Qed.

Lemma at_index_app_l {A : Type} (l l' : list A) (j : Z) (x : A) :
  at_index l j = Some x -> at_index (l ++ l') j = Some x.
Proof.
  intros E. pose proof (at_index_range _ _ _ E) as R.
  unfold at_index in *. destruct (Z.ltb_spec j 0); [discriminate|].
  rewrite nth_error_app1 by lia. exact E.
Qed.

Lemma at_index_middle {A : Type} (l l' : list A) (a : A) :
  at_index (l ++ a :: l') (Z.of_nat (List.length l)) = Some a.
Proof.
  unfold at_index. destruct (Z.ltb_spec (Z.of_nat (List.length l)) 0); [lia|].
  rewrite Nat2Z.id. rewrite nth_error_app2 by lia.
  now rewrite Nat.sub_diag.
Qed.

(** ** The anchor search *)

Section AnchorSearch.

Variable refTempAt60s : float.

Lemma AnchorInv_init : AnchorInv refTempAt60s [] anchorInit.
Proof.
  left. repeat split. intros j w H. unfold present in H.
  rewrite at_index_nil in H. discriminate.
Qed.

Lemma AnchorInv_step (seen : NumericColumn) (st : AnchorState)
    (temp : option float) :
  AnchorInv refTempAt60s seen st ->
  AnchorInv refTempAt60s (seen ++ [temp])
    (anchorStep refTempAt60s st (Z.of_nat (List.length seen)) temp).
Proof.
  intros Inv.
  assert (Hold : forall j w, present (seen ++ [temp]) j w ->
            present seen j w \/ (j = Z.of_nat (List.length seen) /\ temp = Some w)).
  { intros j w H. apply at_index_snoc in H. destruct H as [H|[-> H]]; [now left|].
    right. split; [reflexivity|now symmetry]. }
  destruct temp as [t|]; simpl.
  - destruct (distance t refTempAt60s <? minDiff st)%float eqn:Hlt.
    + (* the new row becomes the anchor *)
      right. exists t. simpl.
      assert (Hbelow : forall j w, present seen j w ->
                (distance w refTempAt60s <? minDiff st)%float = false).
      { destruct Inv as [(_ & Hm & Hall)|(v & _ & Hm & _ & Hall & _)];
          rewrite Hm; exact Hall. }
      split; [apply at_index_middle|].
      split; [reflexivity|].
      split.
      { destruct Inv as [(_ & Hm & _)|(v & _ & Hm & Hmax & _)].
        - now rewrite <- Hm.
        - apply FloatOrder.ltb_trans with (y := minDiff st); [exact Hlt|].
          now rewrite Hm. }
      split.
      * intros j w H. destruct (Hold j w H) as [Hj|[_ Hj]].
        -- eapply FloatOrder.ltb_not_ltb; [apply (Hbelow j w Hj)|exact Hlt].
        -- injection Hj as ->. apply FloatOrder.ltb_irrefl.
      * intros j w Hjlt H. destruct (Hold j w H) as [Hj|[Hj _]]; [|lia].
        eapply FloatOrder.ltb_not_leb; [apply (Hbelow j w Hj)|exact Hlt].
    + (* the state is kept *)
      destruct Inv as [(Ha & Hm & Hall)|(v & Hv & Hm & Hmax & Hall & Hearly)].
      * left. repeat split; try assumption.
        intros j w H. destruct (Hold j w H) as [Hj|[_ Hj]]; [now apply (Hall j)|].
        injection Hj as ->. now rewrite <- Hm.
      * right. exists v.
        split; [now apply at_index_app_l|].
        repeat split; try assumption.
        -- intros j w H. destruct (Hold j w H) as [Hj|[_ Hj]]; [now apply (Hall j)|].
           injection Hj as ->. now rewrite <- Hm.
        -- intros j w Hjlt H. destruct (Hold j w H) as [Hj|[Hj _]];
             [now apply (Hearly j)|].
           apply at_index_range in Hv. lia.
  - (* an absent marker *)
    destruct Inv as [(Ha & Hm & Hall)|(v & Hv & Hm & Hmax & Hall & Hearly)].
    + left. repeat split; try assumption.
      intros j w H. destruct (Hold j w H) as [Hj|[_ Hj]];
        [now apply (Hall j)|discriminate].
    + right. exists v.
      split; [now apply at_index_app_l|].
      repeat split; try assumption.
      * intros j w H. destruct (Hold j w H) as [Hj|[_ Hj]];
          [now apply (Hall j)|discriminate].
      * intros j w Hjlt H. destruct (Hold j w H) as [Hj|[_ Hj]];
          [now apply (Hearly j)|discriminate].
Qed.

Lemma AnchorInv_loop (rest seen : NumericColumn) (st : AnchorState) :
  AnchorInv refTempAt60s seen st ->
  AnchorInv refTempAt60s (seen ++ rest)
    (anchorLoop refTempAt60s rest (Z.of_nat (List.length seen)) st).
Proof.
  revert seen st. induction rest as [|temp rest IH]; intros seen st Inv; simpl.
  - now rewrite app_nil_r.
  - specialize (IH (seen ++ [temp]) _ (AnchorInv_step seen st temp Inv)).
    rewrite <- app_assoc, length_app in IH. simpl in IH.
    replace (Z.of_nat (List.length seen + 1)) with (Z.of_nat (List.length seen) + 1)
      in IH by lia.
    exact IH.
Qed.

Lemma AnchorInv_final (tempData : NumericColumn) :
  AnchorInv refTempAt60s tempData (anchorLoop refTempAt60s tempData 0 anchorInit).
Proof. exact (AnchorInv_loop tempData [] anchorInit AnchorInv_init). Qed.

End AnchorSearch.

(** The search leaves [-1] exactly when no number of the column lies at a
    distance strictly below [Number.MAX_VALUE]. *)
Lemma findAnchor_none_iff (tempData : NumericColumn) (refTempAt60s : float) :
  findAnchor tempData refTempAt60s = -1 <->
  (forall j w, present tempData j w ->
     (distance w refTempAt60s <? Js.MAX_VALUE)%float = false).
Proof.
  unfold findAnchor.
  destruct (AnchorInv_final refTempAt60s tempData)
    as [(Ha & _ & Hall)|(v & Hv & _ & Hmax & _)].
  - split; [intros _; exact Hall|intros _; exact Ha].
  - split.
    + intros E. rewrite E in Hv. apply at_index_range in Hv. lia.
    + intros Hall. rewrite (Hall _ _ Hv) in Hmax. discriminate.
Qed.

(** A selected anchor is a row of the column that holds a number. *)
Lemma findAnchor_present (tempData : NumericColumn) (refTempAt60s : float) :
  findAnchor tempData refTempAt60s <> -1 ->
  exists v, present tempData (findAnchor tempData refTempAt60s) v.
Proof.
  unfold findAnchor. intros Hne.
  destruct (AnchorInv_final refTempAt60s tempData)
    as [(Ha & _)|(v & Hv & _)]; [contradiction|].
  now exists v.
Qed.

Lemma processThermalData_thrown_iff (tempData : NumericColumn)
    (refTempAt60s : float) :
  processThermalData tempData refTempAt60s = Thrown anchorNotFoundMessage <->
  findAnchor tempData refTempAt60s = -1.
Proof.
  unfold processThermalData.
  destruct (Z.eqb_spec (findAnchor tempData refTempAt60s) (-1)) as [E|E].
  - now split.
  - split; [discriminate|contradiction].
Qed.

Lemma processThermalData_returned (tempData : NumericColumn)
    (refTempAt60s : float) (m : ThermalMetrics) :
  processThermalData tempData refTempAt60s = Returned m ->
  findAnchor tempData refTempAt60s <> -1 /\
  m = {|
    timeTo100 := findTimeForTemp tempData (findAnchor tempData refTempAt60s) 100%float;
    timeTo150 := findTimeForTemp tempData (findAnchor tempData refTempAt60s) 150%float;
    timeTo180 := findTimeForTemp tempData (findAnchor tempData refTempAt60s) 180%float;
    timeTo200 := findTimeForTemp tempData (findAnchor tempData refTempAt60s) 200%float;
    tempAt1Min := findTempAtTime tempData (findAnchor tempData refTempAt60s) 60;
    tempAt2Min := findTempAtTime tempData (findAnchor tempData refTempAt60s) 120;
    tempAt5Min := findTempAtTime tempData (findAnchor tempData refTempAt60s) 300;
    tempAt10Min := findTempAtTime tempData (findAnchor tempData refTempAt60s) 600
  |}.
Proof.
  unfold processThermalData.
  destruct (Z.eqb_spec (findAnchor tempData refTempAt60s) (-1)) as [E|E].
  - discriminate.
  - intros H. injection H as <-. now split.
Qed.

(** Whenever some number of the column lies at a distance below
    [Number.MAX_VALUE] from the reference, the search selects a row that
    holds a number, no number of the column is strictly closer to the
    reference, and no earlier number is as close. *)
Theorem findAnchor_earliest_closest (tempData : NumericColumn)
    (refTempAt60s : float) (i : Z) (x : float) :
  present tempData i x ->
  (distance x refTempAt60s <? Js.MAX_VALUE)%float = true ->
  exists v, present tempData (findAnchor tempData refTempAt60s) v /\
    (forall j w, present tempData j w ->
       (distance w refTempAt60s <? distance v refTempAt60s)%float = false) /\
    (forall j w, j < findAnchor tempData refTempAt60s -> present tempData j w ->
       (distance w refTempAt60s <=? distance v refTempAt60s)%float = false).
Proof.
  intros Hx Hlt. unfold findAnchor.
  destruct (AnchorInv_final refTempAt60s tempData)
    as [(_ & _ & Hall)|(v & Hv & _ & _ & Hmin & Hearly)].
  - rewrite (Hall _ _ Hx) in Hlt. discriminate.
  - exists v. repeat split; assumption.
Qed.

Lemma findAnchor_earliest_closest_witness :
  exists v, present exampleAnchorColumn (findAnchor exampleAnchorColumn 19%float) v /\
    (forall j w, present exampleAnchorColumn j w ->
       (distance w 19 <? distance v 19)%float = false) /\
    (forall j w, j < findAnchor exampleAnchorColumn 19%float ->
       present exampleAnchorColumn j w ->
       (distance w 19 <=? distance v 19)%float = false).
Proof.
  apply (findAnchor_earliest_closest exampleAnchorColumn 19%float 0 18%float);
    reflexivity.
Defined.

(** When a distance is not NaN, "not strictly closer" reads as a minimum:
    the anchor's distance is at most the distance of every number of the
    column whose distance is a number. *)
Theorem findAnchor_minimum (tempData : NumericColumn) (refTempAt60s : float)
    (v : float) (j : Z) (w : float) :
  present tempData (findAnchor tempData refTempAt60s) v ->
  present tempData j w ->
  Js.isNaN (distance w refTempAt60s) = false ->
  (distance v refTempAt60s <=? distance w refTempAt60s)%float = true.
Proof.
  intros Hv Hw Hnan. unfold findAnchor in *.
  destruct (AnchorInv_final refTempAt60s tempData)
    as [(Ha & _)|(v' & Hv' & _ & Hmax & Hmin & _)].
  - rewrite Ha in Hv. apply at_index_range in Hv. lia.
  - unfold present in Hv, Hv'. rewrite Hv in Hv'. injection Hv' as <-.
    apply FloatOrder.ltb_false_leb; [exact Hnan| |now apply (Hmin j)].
    exact (FloatOrder.ltb_not_NaN _ _ Hmax).
Qed.

Lemma findAnchor_minimum_witness :
  (distance 19 19 <=? distance 25 19)%float = true.
Proof.
  apply (findAnchor_minimum exampleAnchorColumn 19%float 19%float 4 25%float);
    reflexivity.
Defined.

(** C1.  Anchor selection.  On the worked example, column
    [18, 20, 19, absent, 25] with reference 19, the anchor index is 2, the
    earliest row at the least distance.  The general statement, for every
    column that holds a number, does not hold of the code: the column whose
    only entry is [Number.MAX_VALUE], with reference 0, holds a number at
    index 0 (the one and hence the closest entry), and the search selects no
    row at all and leaves [-1]; the same happens for an entry [Infinity]. *)
Theorem anchor_example_and_missed_anchor :
  findAnchor exampleAnchorColumn 19%float = 2 /\
  (hasPresent [Some Js.MAX_VALUE] /\
   distance Js.MAX_VALUE 0 = Js.MAX_VALUE /\
   findAnchor [Some Js.MAX_VALUE] 0%float = -1) /\
  (hasPresent [Some infinity] /\
   findAnchor [Some infinity] 19%float = -1).
Proof.
  split; [reflexivity|]. split.
  - split; [|split; reflexivity].
    exists 0, Js.MAX_VALUE. reflexivity.
  - split; [|reflexivity].
    exists 0, infinity. reflexivity.
Qed.

(** ** Time to reach a temperature *)

Lemma findTimeLoop_spec (anchorIndex : Z) (targetTemp : float)
    (rest seen : NumericColumn) :
  (forall j w, present seen j w -> Js.geb w targetTemp = false) ->
  FirstCrossing (seen ++ rest) anchorIndex targetTemp
    (findTimeLoop anchorIndex targetTemp rest (Z.of_nat (List.length seen))).
Proof.
  revert seen. induction rest as [|val rest IH]; intros seen Hseen; simpl.
  - rewrite app_nil_r. exact Hseen.
  - assert (Hnext : forall x, (forall w, x = Some w -> Js.geb w targetTemp = false) ->
              FirstCrossing (seen ++ x :: rest) anchorIndex targetTemp
                (findTimeLoop anchorIndex targetTemp rest
                   (Z.of_nat (List.length seen) + 1))).
    { intros x Hx.
      specialize (IH (seen ++ [x])).
      rewrite <- app_assoc, length_app in IH. simpl in IH.
      replace (Z.of_nat (List.length seen + 1))
        with (Z.of_nat (List.length seen) + 1) in IH by lia.
      apply IH. intros j w H. apply at_index_snoc in H.
      destruct H as [H|[_ H]]; [now apply (Hseen j)|].
      apply Hx. now symmetry. }
    destruct val as [v|].
    + destruct (Js.geb v targetTemp) eqn:Hge.
      * simpl. exists (Z.of_nat (List.length seen)), v.
        split; [apply at_index_middle|].
        split; [exact Hge|]. split; [|reflexivity].
        intros j w Hj H. apply (Hseen j).
        pose proof (at_index_range _ _ _ H) as R.
        unfold present, at_index in *.
        destruct (Z.ltb_spec j 0); [discriminate|].
        rewrite nth_error_app1 in H by lia. exact H.
      * apply Hnext. intros w E. injection E as <-. exact Hge.
    + apply Hnext. intros w E. discriminate.
Qed.

(** C2.  For every column, every anchor index and every target
    temperature T, the "time to reach T" metric is [60 + (i - anchorIndex)]
    for the smallest index [i], counted from row 0 (rows before the anchor
    included), whose entry is a number [>= T]; when no entry is a number
    [>= T] it is "not available".  The four "time to reach" fields of a
    returned record are this metric at 100, 150, 180 and 200, for the anchor
    the search selected. *)
Theorem time_to_reach_first_crossing (tempData : NumericColumn) :
  (forall (anchorIndex : Z) (targetTemp : float),
     FirstCrossing tempData anchorIndex targetTemp
       (findTimeForTemp tempData anchorIndex targetTemp)) /\
  (forall (refTempAt60s : float) (m : ThermalMetrics),
     processThermalData tempData refTempAt60s = Returned m ->
     let a := findAnchor tempData refTempAt60s in
     FirstCrossing tempData a 100 (timeTo100 m) /\
     FirstCrossing tempData a 150 (timeTo150 m) /\
     FirstCrossing tempData a 180 (timeTo180 m) /\
     FirstCrossing tempData a 200 (timeTo200 m)).
Proof.
  assert (H : forall anchorIndex targetTemp,
            FirstCrossing tempData anchorIndex targetTemp
              (findTimeForTemp tempData anchorIndex targetTemp)).
  { intros anchorIndex targetTemp.
    apply (findTimeLoop_spec anchorIndex targetTemp tempData []).
    intros j w Hp. unfold present in Hp. rewrite at_index_nil in Hp.
    discriminate. }
  split; [exact H|].
  intros refTempAt60s m Hm.
  apply processThermalData_returned in Hm. destruct Hm as [_ ->]. simpl.
  repeat split; apply H.
Qed.

(** The scan finds a crossing that lies before the anchor: with the anchor
    at index 4 the first row [>= 100] of the ramp is still row 2, second 58. *)
Lemma time_to_reach_first_crossing_witness :
  FirstCrossing exampleRampColumn 4 100 (Value 58) /\
  FirstCrossing exampleRampColumn 2 200 NotAvailable /\
  exists m, processThermalData exampleRampColumn 110%float = Returned m /\
    FirstCrossing exampleRampColumn 4 100 (timeTo100 m).
Proof.
  destruct (time_to_reach_first_crossing exampleRampColumn) as [Hscan Hrec].
  split; [exact (Hscan 4 100%float)|].
  split; [exact (Hscan 2 200%float)|].
  eexists. split; [reflexivity|].
  exact (proj1 (Hrec 110%float _ eq_refl)).
Defined.

(** C3, as the specification states it, fails: on the ramp
    [90, 95, 100, 105, 110] with the anchor at index 2 the first row
    [>= 100] is row 2 itself, so "time to reach 100" is 60 and not 62. *)
Lemma time_to_100_on_ramp_is_not_62 :
  findAnchor exampleRampColumn 100%float = 2 /\
  exists m, processThermalData exampleRampColumn 100%float = Returned m /\
    timeTo100 m = Value 60 /\ timeTo100 m <> Value 62.
Proof.
  split; [reflexivity|].
  eexists. split; [reflexivity|]. split; [reflexivity|]. discriminate.
Qed.

(** C3, amended.  On the ramp [90, 95, 100, 105, 110], whenever the
    reference puts the anchor at index 2 (so that indices 0..4 are seconds
    58..62), the "time to reach 100" metric of [processThermalData] is 60:
    row 2, the anchor row, is the first row, from index 0, that holds a
    number [>= 100]. *)
Theorem time_to_100_on_ramp (refTempAt60s : float) (m : ThermalMetrics) :
  findAnchor exampleRampColumn refTempAt60s = 2 ->
  processThermalData exampleRampColumn refTempAt60s = Returned m ->
  timeTo100 m = Value 60 /\
  map (getTimeForIndex 2) [0; 1; 2; 3; 4] = [58; 59; 60; 61; 62].
Proof.
  intros Ha Hm. apply processThermalData_returned in Hm.
  destruct Hm as [_ ->]. simpl. rewrite Ha. split; reflexivity.
Qed.

Lemma time_to_100_on_ramp_witness :
  exists m, processThermalData exampleRampColumn 100%float = Returned m /\
    timeTo100 m = Value 60.
Proof.
  eexists. split; [reflexivity|].
  exact (proj1 (time_to_100_on_ramp 100%float _ eq_refl eq_refl)).
Defined.

(** ** Temperature at an elapsed time *)

Lemma findTempAtTime_spec (tempData : NumericColumn) (anchorIndex targetTime : Z) :
  SampleAt tempData anchorIndex targetTime
    (findTempAtTime tempData anchorIndex targetTime).
Proof.
  unfold SampleAt, findTempAtTime, getIndexForTime.
  set (idx := anchorIndex + (targetTime - 60)).
  destruct (Z.leb_spec 0 idx) as [Hlo|Hlo]; simpl.
  - destruct (Z.ltb_spec idx (Z.of_nat (List.length tempData))) as [Hhi|Hhi].
    + destruct (at_index tempData idx) as [[v|]|] eqn:E.
      * split; [lia|exact E].
      * now right.
      * exfalso. unfold at_index in E.
        destruct (Z.ltb_spec idx 0); [lia|].
        apply nth_error_None in E. lia.
    + left. lia.
  - left. lia.
Qed.

(** C4.  For every column, anchor index and elapsed time S, the
    "temperature at S" metric looks at index [anchorIndex + (S - 60)] only:
    when that index is inside the column and the entry there is a number,
    the metric is that very number; otherwise it is "not available".  The
    four "temperature at" fields of a returned record are this metric at 60,
    120, 300 and 600.  On the ramp [90, 95, 100, 105, 110] with the anchor at
    index 2, the temperature at second 58 is 90 and at second 200 it is
    "not available". *)
Theorem temperature_at_time_sample (tempData : NumericColumn) :
  (forall (anchorIndex targetTime : Z),
     SampleAt tempData anchorIndex targetTime
       (findTempAtTime tempData anchorIndex targetTime)) /\
  (forall (refTempAt60s : float) (m : ThermalMetrics),
     processThermalData tempData refTempAt60s = Returned m ->
     let a := findAnchor tempData refTempAt60s in
     SampleAt tempData a 60 (tempAt1Min m) /\
     SampleAt tempData a 120 (tempAt2Min m) /\
     SampleAt tempData a 300 (tempAt5Min m) /\
     SampleAt tempData a 600 (tempAt10Min m)) /\
  findTempAtTime exampleRampColumn 2 58 = Value 90%float /\
  findTempAtTime exampleRampColumn 2 200 = NotAvailable.
Proof.
  split; [apply findTempAtTime_spec|].
  split; [|split; reflexivity].
  intros refTempAt60s m Hm.
  apply processThermalData_returned in Hm. destruct Hm as [_ ->]. simpl.
  repeat split; apply findTempAtTime_spec.
Qed.

Lemma temperature_at_time_sample_witness :
  SampleAt exampleRampColumn 2 58 (Value 90%float) /\
  SampleAt exampleRampColumn 2 200 NotAvailable /\
  exists m, processThermalData exampleRampColumn 100%float = Returned m /\
    SampleAt exampleRampColumn 2 60 (tempAt1Min m).
Proof.
  destruct (temperature_at_time_sample exampleRampColumn) as (Hat & Hrec & _).
  split; [exact (Hat 2 58)|].
  split; [exact (Hat 2 200)|].
  eexists. split; [reflexivity|].
  exact (proj1 (Hrec 100%float _ eq_refl)).
Defined.

(** ** Failure of the anchor search *)

(** [processThermalData] throws exactly when no number of the column lies
    at a distance strictly below [Number.MAX_VALUE] from the reference, and
    it throws nothing but the anchor error; a call that throws returns no
    record. *)
Theorem processThermalData_throws_iff (tempData : NumericColumn)
    (refTempAt60s : float) :
  (processThermalData tempData refTempAt60s = Thrown anchorNotFoundMessage <->
   forall j w, present tempData j w ->
     (distance w refTempAt60s <? Js.MAX_VALUE)%float = false) /\
  (forall message, processThermalData tempData refTempAt60s = Thrown message ->
     message = anchorNotFoundMessage).
Proof.
  split.
  - rewrite processThermalData_thrown_iff. apply findAnchor_none_iff.
  - unfold processThermalData. intros message.
    destruct (findAnchor tempData refTempAt60s =? -1); [|discriminate].
    intros H. now injection H as <-.
Qed.

(** C5.  A column whose entries are all absent makes [processThermalData]
    throw the anchor error, and a call that throws returns no record.  The
    converse does not hold of the code: the column whose only entry is
    [Number.MAX_VALUE], with reference 0, and the column whose only entry is
    [Infinity], with reference 19, are not all absent, and the call throws
    the same error. *)
Theorem anchor_not_found_with_present_value :
  (forall tempData refTempAt60s, allAbsent tempData ->
     processThermalData tempData refTempAt60s = Thrown anchorNotFoundMessage) /\
  (~ allAbsent [Some Js.MAX_VALUE] /\
   processThermalData [Some Js.MAX_VALUE] 0%float = Thrown anchorNotFoundMessage) /\
  (~ allAbsent [Some infinity] /\
   processThermalData [Some infinity] 19%float = Thrown anchorNotFoundMessage).
Proof.
  split.
  - intros tempData refTempAt60s Habs.
    apply processThermalData_thrown_iff, findAnchor_none_iff. intros j w Hp.
    specialize (Habs _ _ Hp). discriminate.
  - split; (split; [|reflexivity]); intros Habs;
      specialize (Habs 0 _ eq_refl); discriminate.
Qed.

(** C10.  Whenever [processThermalData] returns a record, second 60 maps
    to the anchor index itself, the anchor row lies inside the column and
    holds a number, and the "temperature at 60 s" field is that number: it
    is never "not available". *)
Theorem temperature_at_60_is_anchor_value (tempData : NumericColumn)
    (refTempAt60s : float) (m : ThermalMetrics) :
  processThermalData tempData refTempAt60s = Returned m ->
  let a := findAnchor tempData refTempAt60s in
  getIndexForTime a 60 = a /\
  0 <= a < Z.of_nat (List.length tempData) /\
  exists v, present tempData a v /\ tempAt1Min m = Value v /\
    tempAt1Min m <> NotAvailable.
Proof.
  intros Hm a. apply processThermalData_returned in Hm.
  destruct Hm as [Hne ->]. simpl.
  destruct (findAnchor_present _ _ Hne) as [v Hv]. fold a in Hv.
  pose proof (at_index_range _ _ _ Hv) as R.
  assert (Ha : getIndexForTime a 60 = a) by (unfold getIndexForTime; lia).
  split; [exact Ha|]. split; [exact R|].
  exists v. split; [exact Hv|].
  assert (E : findTempAtTime tempData a 60 = Value v).
  { unfold findTempAtTime. rewrite Ha.
    destruct (Z.leb_spec 0 a); [|lia].
    destruct (Z.ltb_spec a (Z.of_nat (List.length tempData))); [|lia].
    simpl. unfold present in Hv. now rewrite Hv. }
  fold a. rewrite E. split; [reflexivity|discriminate].
Qed.

Lemma temperature_at_60_is_anchor_value_witness :
  exists m, processThermalData exampleAnchorColumn 19%float = Returned m /\
    tempAt1Min m = Value 19%float.
Proof.
  eexists. split; [reflexivity|].
  destruct (temperature_at_60_is_anchor_value exampleAnchorColumn 19%float _ eq_refl)
    as (_ & _ & v & Hv & E & _).
  rewrite E. f_equal.
  unfold present in Hv. vm_compute in Hv. now injection Hv as ->.
Defined.

(** ** Physical properties *)

Lemma eqb_zero_zeroOrNaN (a : float) : (a =? 0)%float = true -> zeroOrNaN a.
Proof.
  rewrite FloatAxioms.eqb_spec.
  change (Prim2SF 0) with (S754_zero false).
  destruct (Prim2SF a) as [s|s| |s m e] eqn:E;
    try discriminate; try (destruct s; discriminate).
  intros _. left. now exists s.
Qed.

Lemma mul_zeroOrNaN_l (a b : float) : zeroOrNaN a -> zeroOrNaN (a * b)%float.
Proof.
  unfold zeroOrNaN. rewrite FloatAxioms.mul_spec. unfold SF64mul.
  intros [[s ->]| ->]; destruct (Prim2SF b); simpl; eauto.
Qed.

Lemma div_zeroOrNaN_million (a : float) :
  zeroOrNaN a -> zeroOrNaN (a / 1000000)%float.
Proof.
  unfold zeroOrNaN. rewrite FloatAxioms.div_spec. unfold SF64div.
  change (Prim2SF 1000000) with (S754_finite false 8589934592000000 (-33)).
  intros [[s ->]| ->]; simpl; eauto.
Qed.

Lemma gtb_zeroOrNaN (a : float) : zeroOrNaN a -> Js.gtb a 0 = false.
Proof.
  unfold zeroOrNaN, Js.gtb. rewrite FloatAxioms.ltb_spec.
  change (Prim2SF 0) with (S754_zero false).
  intros [[s ->]| ->]; reflexivity.
Qed.

(** C8, as the specification states it, fails: for the finite inputs
    width = -1000, length = 1000, weight = 500, thickness = 1 the area is -1
    and the volume -0.001, neither is zero, the quotients of the stated
    formulas are -500, and the code returns 0 for both properties. *)
Lemma negative_area_gives_zero :
  let inputs := measurements 1 500 (-1000) 1000 in
  let area := ((-1000 * 1000) / 1000000)%float in
  let volume := (area * (1 / 1000))%float in
  (area =? 0)%float = false /\ (volume =? 0)%float = false /\
  (500 / area = -500)%float /\ ((500 / 1000) / volume = -500)%float /\
  Types.weightGsm (calculatePhysicalProperties inputs) = 0%float /\
  Types.density (calculatePhysicalProperties inputs) = 0%float /\
  Types.weightGsm (calculatePhysicalProperties inputs) <> (500 / area)%float /\
  Types.density (calculatePhysicalProperties inputs) <> ((500 / 1000) / volume)%float.
Proof.
  cbv zeta. repeat split; try reflexivity; vm_compute; intros H;
    apply (f_equal Prim2SF) in H; vm_compute in H; discriminate.
Qed.

(** C8, amended.  For all inputs, with area = (width * length) / 1,000,000
    and volume = area * (thickness / 1000): [weightGsm] is weight / area
    when area > 0 and 0 otherwise (area zero, negative or NaN), and
    [density] is (weight / 1000) / volume when volume > 0 and 0 otherwise.
    Width 1000, length 1000, weight 500 and thickness 1 give 500 and 500;
    a width that is zero gives 0 and 0, whatever the other inputs are. *)
Theorem physical_properties_guarded (inputs : Types.PhysicalInputs) :
  let area := ((Types.width inputs * Types.length inputs) / 1000000)%float in
  let volume := (area * (Types.thickness inputs / 1000))%float in
  let result := calculatePhysicalProperties inputs in
  ((0 <? area)%float = true ->
     Types.weightGsm result = (Types.weightRaw inputs / area)%float) /\
  ((0 <? area)%float = false -> Types.weightGsm result = 0%float) /\
  ((0 <? volume)%float = true ->
     Types.density result = ((Types.weightRaw inputs / 1000) / volume)%float) /\
  ((0 <? volume)%float = false -> Types.density result = 0%float) /\
  ((Types.width inputs =? 0)%float = true ->
     Types.weightGsm result = 0%float /\ Types.density result = 0%float) /\
  calculatePhysicalProperties (measurements 1 500 1000 1000) =
    {| Types.weightGsm := 500; Types.density := 500 |}.
Proof.
  cbv zeta.
  unfold calculatePhysicalProperties, volumeM3, massKg, thicknessM, areaM2, Js.gtb.
  simpl.
  split; [now intros ->|]. split; [now intros ->|].
  split; [now intros ->|]. split; [now intros ->|].
  split; [|reflexivity].
  intros Hw. apply eqb_zero_zeroOrNaN in Hw.
  assert (Harea : zeroOrNaN ((Types.width inputs * Types.length inputs) / 1000000)%float).
  { now apply div_zeroOrNaN_million, mul_zeroOrNaN_l. }
  pose proof (gtb_zeroOrNaN _ Harea) as Ha.
  pose proof (gtb_zeroOrNaN _
    (mul_zeroOrNaN_l _ (Types.thickness inputs / 1000)%float Harea)) as Hv.
  unfold Js.gtb in Ha, Hv. rewrite Ha, Hv. now split.
Qed.

Lemma physical_properties_guarded_witness :
  Types.weightGsm (calculatePhysicalProperties (measurements 1 500 1000 1000))
    = (500 / ((1000 * 1000) / 1000000))%float /\
  Types.density (calculatePhysicalProperties (measurements 1 500 1000 1000))
    = ((500 / 1000) / (((1000 * 1000) / 1000000) * (1 / 1000)))%float /\
  Types.weightGsm (calculatePhysicalProperties (measurements 1 500 (-1000) 1000))
    = 0%float /\
  (Types.weightGsm (calculatePhysicalProperties (measurements 1 500 0 1000)) = 0%float /\
   Types.density (calculatePhysicalProperties (measurements 1 500 0 1000)) = 0%float).
Proof.
  pose proof (physical_properties_guarded (measurements 1 500 1000 1000))
    as (Hw & _ & Hd & _).
  pose proof (physical_properties_guarded (measurements 1 500 (-1000) 1000))
    as (_ & Hneg & _).
  pose proof (physical_properties_guarded (measurements 1 500 0 1000))
    as (_ & _ & _ & _ & Hzero & _).
  split; [exact (Hw eq_refl)|]. split; [exact (Hd eq_refl)|].
  split; [exact (Hneg eq_refl)|exact (Hzero eq_refl)].
Defined.

(** ** Tabular reader *)

(** C9.  For every parsed grid, the extracted column has one entry per
    row of the grid, in row order: entry [i] comes from row [i] alone.  It
    is the absent marker when the row has no cell at the column index or
    when the cell does not parse to a number (the parse gives NaN), and the
    parsed number otherwise; the extraction has no failing case. *)
Theorem readExcelColumn_one_entry_per_row (numberToString : float -> string)
    (parseFloatString : string -> float) (jsonData : Grid) (colIndex : Z) :
  let column := readExcelColumn numberToString parseFloatString jsonData colIndex in
  List.length column = List.length jsonData /\
  forall (i : nat) (row : Row), nth_error jsonData i = Some row ->
    let num := parseFloat numberToString parseFloatString (cellAt row colIndex) in
    (at_index row colIndex = None -> nth_error column i = Some None) /\
    (Js.isNaN num = true -> nth_error column i = Some None) /\
    (Js.isNaN num = false -> nth_error column i = Some (Some num)).
Proof.
  cbv zeta. unfold readExcelColumn. split; [apply length_map|].
  intros i row Hrow. rewrite nth_error_map, Hrow. simpl. unfold coerceRow.
  split; [|split].
  - intros Hmiss. unfold cellAt. rewrite Hmiss. reflexivity.
  - now intros ->.
  - now intros ->.
Qed.

(** ** Template merge *)

Lemma padLoop_spec (fuel : nat) (row : Row) (maxColCount : nat) :
  padLoop fuel row maxColCount =
  row ++ repeat CNull (Nat.min fuel (maxColCount - List.length row)).
Proof.
  revert row. induction fuel as [|fuel IH]; intros row; simpl.
  - now rewrite app_nil_r.
  - destruct (Nat.ltb_spec (List.length row) maxColCount) as [Hlt|Hge].
    + rewrite IH, length_app. simpl.
      replace (maxColCount - List.length row)%nat
        with (S (maxColCount - (List.length row + 1)))%nat by lia.
      simpl. now rewrite <- app_assoc.
    + replace (maxColCount - List.length row)%nat with 0%nat by lia.
      now rewrite app_nil_r.
Qed.

(** The padding loop has fuel enough: it stops with the row filled up to
    [maxColCount] with empty cells. *)
Lemma padRow_spec (row : Row) (maxColCount : nat) :
  padRow row maxColCount =
  row ++ repeat CNull (maxColCount - List.length row).
Proof.
  unfold padRow. rewrite padLoop_spec. f_equal. f_equal. lia.
Qed.

Lemma nth_error_setRow (sheetData : SheetData) (i : nat) (row : Row) (j : nat) :
  nth_error (setRow sheetData i row) j =
  if (j =? i)%nat then Some (Some row)
  else if (j <? List.length sheetData)%nat then nth_error sheetData j
  else if (j <? i)%nat then Some None
  else None.
Proof.
  unfold setRow.
  destruct (Nat.eqb_spec j i) as [->|Hne];
    destruct (Nat.ltb_spec i (List.length sheetData)) as [Hi|Hi].
  - rewrite nth_error_app2 by (rewrite length_firstn; lia).
    rewrite length_firstn.
    replace (i - Nat.min i (List.length sheetData))%nat with 0%nat by lia.
    reflexivity.
  - rewrite nth_error_app2 by lia.
    rewrite nth_error_app2 by (rewrite repeat_length; lia).
    rewrite repeat_length.
    replace (i - List.length sheetData - (i - List.length sheetData))%nat
      with 0%nat by lia.
    reflexivity.
  - destruct (Nat.ltb_spec j (List.length sheetData)) as [Hj|Hj].
    + destruct (Nat.lt_ge_cases j i) as [Hlt|Hge].
      * rewrite nth_error_app1 by (rewrite length_firstn; lia).
        rewrite nth_error_firstn.
        destruct (Nat.ltb_spec j i); [reflexivity|lia].
      * rewrite nth_error_app2 by (rewrite length_firstn; lia).
        rewrite length_firstn.
        replace (j - Nat.min i (List.length sheetData))%nat
          with (S (j - S i))%nat by lia.
        cbn [nth_error]. rewrite nth_error_skipn. f_equal. lia.
    + destruct (Nat.ltb_spec j i); [lia|].
      apply nth_error_None.
      rewrite length_app, length_firstn. cbn [List.length].
      rewrite length_skipn. lia.
  - destruct (Nat.ltb_spec j (List.length sheetData)) as [Hj|Hj].
    + now rewrite nth_error_app1.
    + rewrite nth_error_app2 by lia.
      destruct (Nat.ltb_spec j i) as [Hlt|Hge].
      * rewrite nth_error_app1 by (rewrite repeat_length; lia).
        apply nth_error_repeat. lia.
      * apply nth_error_None.
        rewrite length_app, repeat_length. simpl. lia.
Qed.

Lemma rowAt_setRow_same (sheetData : SheetData) (i : nat) (row : Row) :
  rowAt (setRow sheetData i row) i = Some row.
Proof. unfold rowAt. now rewrite nth_error_setRow, Nat.eqb_refl. Qed.

Lemma rowAt_setRow_other (sheetData : SheetData) (i : nat) (row : Row) (j : nat) :
  j <> i -> rowAt (setRow sheetData i row) j = rowAt sheetData j.
Proof.
  intros Hne. unfold rowAt. rewrite nth_error_setRow.
  destruct (Nat.eqb_spec j i); [contradiction|].
  destruct (Nat.ltb_spec j (List.length sheetData)) as [Hj|Hj]; [reflexivity|].
  apply nth_error_None in Hj. rewrite Hj.
  now destruct (j <? i)%nat.
Qed.

Lemma nth_error_setRow_after (sheetData : SheetData) (i : nat) (row : Row) (j : nat) :
  (i < j)%nat -> nth_error (setRow sheetData i row) j = nth_error sheetData j.
Proof.
  intros Hlt. rewrite nth_error_setRow.
  destruct (Nat.eqb_spec j i); [lia|].
  destruct (Nat.ltb_spec j (List.length sheetData)) as [Hj|Hj]; [reflexivity|].
  destruct (Nat.ltb_spec j i); [lia|].
  symmetry. now apply nth_error_None.
Qed.

(** One iteration of the second loop: row [i] becomes the row found (or
    the empty row created), padded, with [v] pushed; nothing else moves. *)
Lemma rowAt_appendStep_same (maxColCount : nat) (sheetData : SheetData)
    (i : nat) (v : Cell) :
  rowAt (appendStep maxColCount sheetData i v) i =
  Some (padRow (rowOrEmpty sheetData i) maxColCount ++ [v]).
Proof.
  unfold appendStep, rowOrEmpty.
  destruct (rowAt sheetData i) as [r|] eqn:E.
  - rewrite E. apply rowAt_setRow_same.
  - rewrite rowAt_setRow_same. apply rowAt_setRow_same.
Qed.

Lemma rowAt_appendStep_other (maxColCount : nat) (sheetData : SheetData)
    (i : nat) (v : Cell) (j : nat) :
  j <> i -> rowAt (appendStep maxColCount sheetData i v) j = rowAt sheetData j.
Proof.
  intros Hne. unfold appendStep.
  destruct (rowAt sheetData i) as [r|] eqn:E.
  - rewrite E. now apply rowAt_setRow_other.
  - rewrite rowAt_setRow_same.
    rewrite rowAt_setRow_other by exact Hne. now apply rowAt_setRow_other.
Qed.

Lemma nth_error_appendStep_after (maxColCount : nat) (sheetData : SheetData)
    (i : nat) (v : Cell) (j : nat) :
  (i < j)%nat ->
  nth_error (appendStep maxColCount sheetData i v) j = nth_error sheetData j.
Proof.
  intros Hlt. unfold appendStep.
  destruct (rowAt sheetData i) as [r|] eqn:E.
  - rewrite E. now apply nth_error_setRow_after.
  - rewrite rowAt_setRow_same.
    rewrite nth_error_setRow_after by exact Hlt. now apply nth_error_setRow_after.
Qed.

Lemma rowAt_appendLoop_before (maxColCount : nat) (values : list Cell)
    (sheetData : SheetData) (i j : nat) :
  (j < i)%nat ->
  rowAt (appendLoop maxColCount sheetData i values) j = rowAt sheetData j.
Proof.
  revert sheetData i. induction values as [|v values IH]; intros sheetData i Hlt.
  - reflexivity.
  - simpl. rewrite IH by lia. apply rowAt_appendStep_other. lia.
Qed.

Lemma rowAt_appendLoop_at (maxColCount : nat) (values : list Cell)
    (sheetData : SheetData) (i k : nat) (v : Cell) :
  nth_error values k = Some v ->
  rowAt (appendLoop maxColCount sheetData i values) (i + k) =
  Some (padRow (rowOrEmpty sheetData (i + k)) maxColCount ++ [v]).
Proof.
  revert sheetData i k.
  induction values as [|a values IH]; intros sheetData i k Hk.
  - destruct k; discriminate.
  - destruct k as [|k]; simpl in Hk |- *.
    + injection Hk as ->. rewrite Nat.add_0_r.
      rewrite rowAt_appendLoop_before by lia. apply rowAt_appendStep_same.
    + replace (i + S k)%nat with (S i + k)%nat by lia.
      rewrite (IH _ _ _ Hk). unfold rowOrEmpty.
      rewrite rowAt_appendStep_other by lia. reflexivity.
Qed.

Lemma nth_error_appendLoop_after (maxColCount : nat) (values : list Cell)
    (sheetData : SheetData) (i j : nat) :
  (i + List.length values <= j)%nat ->
  nth_error (appendLoop maxColCount sheetData i values) j = nth_error sheetData j.
Proof.
  revert sheetData i. induction values as [|v values IH]; intros sheetData i Hle.
  - reflexivity.
  - simpl in Hle |- *. rewrite IH by lia.
    apply nth_error_appendStep_after. lia.
Qed.

(** The first loop computes the maximum of its start value and of the
    lengths of the rows it visits. *)
Lemma maxColLoop_spec (sheetData : SheetData) (k i m0 : nat) :
  (m0 <= maxColLoop sheetData k i m0)%nat /\
  (forall j r, (i <= j < i + k)%nat -> rowAt sheetData j = Some r ->
     (List.length r <= maxColLoop sheetData k i m0)%nat) /\
  (maxColLoop sheetData k i m0 = m0 \/
   exists j r, (i <= j < i + k)%nat /\ rowAt sheetData j = Some r /\
     List.length r = maxColLoop sheetData k i m0).
Proof.
  revert i m0. induction k as [|k IH]; intros i m0; simpl.
  - split; [lia|]. split; [intros j r Hj; lia|now left].
  - set (m1 := match rowAt sheetData i with
               | Some r => Nat.max m0 (List.length r)
               | None => m0
               end).
    destruct (IH (S i) m1) as (Hge & Hall & Hattained).
    assert (Hm1 : (m0 <= m1)%nat).
    { unfold m1. destruct (rowAt sheetData i); lia. }
    split; [lia|]. split.
    + intros j r Hj Hr. destruct (Nat.eq_dec j i) as [->|Hne].
      * assert (List.length r <= m1)%nat by (unfold m1; rewrite Hr; lia). lia.
      * apply (Hall j r); [lia|exact Hr].
    + destruct Hattained as [E|(j & r & Hj & Hr & E)].
      * rewrite E. unfold m1. destruct (rowAt sheetData i) as [r|] eqn:Hr;
          [|now left].
        destruct (Nat.max_spec m0 (List.length r)) as [[_ ->]|[_ ->]];
          [|now left].
        right. exists i, r. repeat split; [lia|lia|exact Hr].
      * right. exists j, r. repeat split; [lia|lia|exact Hr|exact E].
Qed.

Lemma rowAt_ofGrid (g : Grid) (i : nat) : rowAt (ofGrid g) i = nth_error g i.
Proof.
  unfold rowAt, ofGrid. rewrite nth_error_map.
  now destruct (nth_error g i).
Qed.

(** The merge of any list of values into any array of rows: what each
    touched row becomes, and what stays as it was. *)
Lemma mergeColumn_row (sheetData : SheetData) (values : list Cell)
    (i : nat) (v : Cell) :
  nth_error values i = Some v ->
  let maxColCount := maxColCountOf sheetData values in
  let old := rowOrEmpty sheetData i in
  (List.length old <= maxColCount)%nat /\
  rowAt (mergeColumn sheetData values) i =
    Some (old ++ repeat CNull (maxColCount - List.length old) ++ [v]).
Proof.
  intros Hv. cbv zeta. split.
  - unfold rowOrEmpty. destruct (rowAt sheetData i) as [r|] eqn:Hr; [|simpl; lia].
    unfold maxColCountOf.
    destruct (maxColLoop_spec sheetData (List.length values) 0 0) as (_ & Hall & _).
    apply (Hall i r); [|exact Hr].
    assert (i < List.length values)%nat by (apply nth_error_Some; congruence).
    lia.
  - unfold mergeColumn.
    rewrite (rowAt_appendLoop_at _ values sheetData 0 i v Hv). simpl.
    now rewrite padRow_spec, <- app_assoc.
Qed.

Lemma mergeColumn_frame (sheetData : SheetData) (values : list Cell) (i : nat) :
  (List.length values <= i)%nat ->
  nth_error (mergeColumn sheetData values) i = nth_error sheetData i.
Proof.
  intros Hle. unfold mergeColumn. apply nth_error_appendLoop_after. simpl. lia.
Qed.

Lemma columnValues_length (toFixed2 : float -> float) (sampleName : string)
    (metrics : ThermalMetrics) (physical : Types.PhysicalInputs)
    (calculated : Types.CalculatedProperties) :
  List.length (columnValues toFixed2 sampleName metrics physical calculated) = 16%nat.
Proof. reflexivity. Qed.

Section TemplateMerge.

Variable toFixed2 : float -> float.
Variables (templateGrid : Grid) (sampleName : string) (metrics : ThermalMetrics).
Variables (physical : Types.PhysicalInputs) (calculated : Types.CalculatedProperties).

Let values : list Cell :=
  columnValues toFixed2 sampleName metrics physical calculated.
Let maxColCount : nat := maxColCountOf (ofGrid templateGrid) values.
Let merged : SheetData :=
  appendToTemplate toFixed2 templateGrid sampleName metrics physical calculated.

(** C6.  For every template grid, ragged or shorter than 16 rows as it
    may be: [maxColCount] is the maximum length of the rows that exist among
    rows 0..15 (0 when there is none), rows from 16 on play no part in it;
    and after the merge each of rows 0..15 is its former content (empty when
    the row did not exist), followed by empty cells up to length
    [maxColCount], followed by its new value.  So every one of rows 0..15
    has length [maxColCount + 1] and carries its new value at column index
    [maxColCount]. *)
Theorem merge_appends_aligned_column :
  (forall i r, (i < 16)%nat -> nth_error templateGrid i = Some r ->
     (List.length r <= maxColCount)%nat) /\
  (maxColCount = 0%nat \/
   exists i r, (i < 16)%nat /\ nth_error templateGrid i = Some r /\
     List.length r = maxColCount) /\
  (forall i, (i < 16)%nat ->
     exists v row,
       nth_error values i = Some v /\
       rowAt merged i = Some row /\
       row = rowOrEmpty (ofGrid templateGrid) i ++
             repeat CNull (maxColCount - List.length (rowOrEmpty (ofGrid templateGrid) i)) ++
             [v] /\
       List.length row = (maxColCount + 1)%nat /\
       nth_error row maxColCount = Some v).
Proof.
  destruct (maxColLoop_spec (ofGrid templateGrid) 16 0 0) as (_ & Hall & Hattained).
  change (maxColLoop (ofGrid templateGrid) 16 0 0) with maxColCount in *.
  split; [|split].
  - intros i r Hi Hr. apply (Hall i r); [lia|]. now rewrite rowAt_ofGrid.
  - destruct Hattained as [E|(j & r & Hj & Hr & E)]; [now left|].
    right. exists j, r. rewrite rowAt_ofGrid in Hr.
    repeat split; [lia|exact Hr|exact E].
  - intros i Hi.
    destruct (nth_error values i) as [v|] eqn:Hv.
    2:{ apply nth_error_None in Hv. unfold values in Hv.
        rewrite columnValues_length in Hv. lia. }
    destruct (mergeColumn_row (ofGrid templateGrid) values i v Hv) as [Hlen Hrow].
    fold maxColCount in Hlen, Hrow.
    set (old := rowOrEmpty (ofGrid templateGrid) i) in *.
    exists v, (old ++ repeat CNull (maxColCount - List.length old) ++ [v]).
    split; [reflexivity|]. split; [exact Hrow|]. split; [reflexivity|].
    split.
    + rewrite !length_app, repeat_length. simpl. lia.
    + rewrite app_assoc. rewrite nth_error_app2;
        rewrite length_app, repeat_length; [|lia].
      replace (maxColCount - (List.length old + (maxColCount - List.length old)))%nat
        with 0%nat by lia.
      reflexivity.
Qed.

(** C7.  The merge changes nothing but the 16 rows that receive a value:
    every slot of the grid of index 16 or more is as it was, and in rows
    0..15 every cell that existed keeps its value and its column index, the
    row being its former content followed by empty cells and by the one new
    value.  On the worked example (rows of lengths 3, 1, 0 and five values)
    [maxColCount] is 3 and rows 0..4 all end with length 4. *)
Theorem merge_keeps_existing_cells :
  (forall i, (16 <= i)%nat ->
     nth_error merged i = nth_error (ofGrid templateGrid) i) /\
  (forall i old, (i < 16)%nat -> nth_error templateGrid i = Some old ->
     exists row, rowAt merged i = Some row /\
       (forall c cell, nth_error old c = Some cell -> nth_error row c = Some cell) /\
       exists k v, nth_error values i = Some v /\
         row = old ++ repeat CNull k ++ [v]) /\
  (maxColCountOf exampleTemplate exampleValues = 3%nat /\
   mergeColumn exampleTemplate exampleValues =
     [ Some [CStr "a"; CStr "b"; CStr "c"; CStr "v0"];
       Some [CStr "d"; CNull; CNull; CStr "v1"];
       Some [CNull; CNull; CNull; CStr "v2"];
       Some [CNull; CNull; CNull; CStr "v3"];
       Some [CNull; CNull; CNull; CStr "v4"] ]).
Proof.
  split; [|split; [|split; reflexivity]].
  - intros i Hi. apply mergeColumn_frame.
    unfold values in *. rewrite columnValues_length. exact Hi.
  - intros i old Hi Hold.
    destruct (nth_error values i) as [v|] eqn:Hv.
    2:{ apply nth_error_None in Hv. unfold values in Hv.
        rewrite columnValues_length in Hv. lia. }
    destruct (mergeColumn_row (ofGrid templateGrid) values i v Hv) as [_ Hrow].
    unfold rowOrEmpty in Hrow. rewrite rowAt_ofGrid, Hold in Hrow.
    eexists. split; [exact Hrow|]. split.
    + intros c cell Hc. rewrite nth_error_app1; [exact Hc|].
      apply nth_error_Some. congruence.
    + eexists _, v. split; reflexivity.
Qed.

End TemplateMerge.

(** * Further properties of the thermal metrics *)

Module FloatFacts.

Lemma SFleb_trans (x y z : spec_float) :
  SFleb x y = true -> SFleb y z = true -> SFleb x z = true.
Proof. destruct x, y, z; FloatOrder.sf_order. Qed.

Lemma leb_trans (x y z : float) :
  (x <=? y)%float = true -> (y <=? z)%float = true -> (x <=? z)%float = true.
Proof. rewrite !FloatAxioms.leb_spec. apply SFleb_trans. Qed.

End FloatFacts.

Lemma findTimeForTemp_spec (tempData : NumericColumn) (anchorIndex : Z)
    (targetTemp : float) :
  FirstCrossing tempData anchorIndex targetTemp
    (findTimeForTemp tempData anchorIndex targetTemp).
Proof.
  apply (findTimeLoop_spec anchorIndex targetTemp tempData []).
  intros j w Hp. unfold present in Hp. rewrite at_index_nil in Hp. discriminate.
Qed.

(** A row that holds a number at least [targetTemp] bounds the metric: the
    scan stops at that row at the latest. *)
Lemma findTimeForTemp_bound (tempData : NumericColumn) (anchorIndex : Z)
    (targetTemp : float) (i : Z) (v : float) :
  present tempData i v -> Js.geb v targetTemp = true ->
  exists t, findTimeForTemp tempData anchorIndex targetTemp = Value t /\
    t <= 60 + (i - anchorIndex).
Proof.
  intros Hv Hge.
  pose proof (findTimeForTemp_spec tempData anchorIndex targetTemp) as H.
  destruct (findTimeForTemp tempData anchorIndex targetTemp) as [t|];
    unfold FirstCrossing in H.
  - exists t. split; [reflexivity|].
    destruct H as (i1 & v1 & _ & _ & Hmin & ->).
    destruct (Z.le_gt_cases i1 i) as [Hle|Hgt]; [lia|].
    rewrite (Hmin i v Hgt Hv) in Hge. discriminate.
  - rewrite (H i v Hv) in Hge. discriminate.
Qed.

(** A higher target is never reached earlier than a lower one, and
    whenever it is reached the lower one is reached too; so the four
    "time to reach" fields of a record are in ascending order as far as they
    are available, and once one is "not available" so are the later ones. *)
Theorem time_to_reach_monotone (tempData : NumericColumn) :
  (forall (anchorIndex : Z) (lower higher : float),
     (lower <=? higher)%float = true ->
     ReachedNoLater (findTimeForTemp tempData anchorIndex lower)
       (findTimeForTemp tempData anchorIndex higher)) /\
  (forall (refTempAt60s : float) (m : ThermalMetrics),
     processThermalData tempData refTempAt60s = Returned m ->
     ReachedNoLater (timeTo100 m) (timeTo150 m) /\
     ReachedNoLater (timeTo150 m) (timeTo180 m) /\
     ReachedNoLater (timeTo180 m) (timeTo200 m)).
Proof.
  assert (H : forall anchorIndex lower higher,
            (lower <=? higher)%float = true ->
            ReachedNoLater (findTimeForTemp tempData anchorIndex lower)
              (findTimeForTemp tempData anchorIndex higher)).
  { intros a lower higher Hle. unfold ReachedNoLater.
    pose proof (findTimeForTemp_spec tempData a higher) as Hhi.
    destruct (findTimeForTemp tempData a higher) as [t2|]; [|exact I].
    unfold FirstCrossing in Hhi. destruct Hhi as (i & v & Hv & Hge & _ & ->).
    apply (findTimeForTemp_bound tempData a lower i v Hv).
    unfold Js.geb in *. exact (FloatFacts.leb_trans _ _ _ Hle Hge). }
  split; [exact H|].
  intros refTempAt60s m Hm.
  apply processThermalData_returned in Hm. destruct Hm as [_ ->]. simpl.
  repeat split; apply H; reflexivity.
Qed.

Lemma time_to_reach_monotone_witness :
  ReachedNoLater (findTimeForTemp exampleRampColumn 2 95)
    (findTimeForTemp exampleRampColumn 2 110) /\
  exists m, processThermalData exampleRampColumn 100%float = Returned m /\
    ReachedNoLater (timeTo100 m) (timeTo150 m).
Proof.
  destruct (time_to_reach_monotone exampleRampColumn) as [Hscan Hrec].
  split; [exact (Hscan 2 95%float 110%float eq_refl)|].
  eexists. split; [reflexivity|].
  exact (proj1 (Hrec 100%float _ eq_refl)).
Defined.

(** The scan for a crossing starts at row 0 and not at the anchor: when the
    temperature at the anchor row, that is at second 60, is already at least
    the target, the "time to reach" metric is available and is at most 60. *)
Theorem time_to_reach_at_most_60 (tempData : NumericColumn)
    (anchorIndex : Z) (targetTemp v : float) :
  findTempAtTime tempData anchorIndex 60 = Value v ->
  Js.geb v targetTemp = true ->
  exists t, findTimeForTemp tempData anchorIndex targetTemp = Value t /\ t <= 60.
Proof.
  intros Hat Hge.
  pose proof (findTempAtTime_spec tempData anchorIndex 60) as H.
  rewrite Hat in H. unfold SampleAt in H. simpl in H. destruct H as [_ Hv].
  destruct (findTimeForTemp_bound tempData anchorIndex targetTemp _ v Hv Hge)
    as (t & Ht & Hle).
  exists t. split; [exact Ht|lia].
Qed.

Lemma time_to_reach_at_most_60_witness :
  exists t, findTimeForTemp exampleRampColumn 4 95 = Value t /\ t <= 60.
Proof.
  apply (time_to_reach_at_most_60 exampleRampColumn 4 95%float 110%float);
    reflexivity.
Defined.

(** ** Absent rows around the samples *)

Lemma anchorLoop_skip_absent (refTempAt60s : float) (n : nat)
    (rest : NumericColumn) (i : Z) (st : AnchorState) :
  anchorLoop refTempAt60s (repeat None n ++ rest) i st =
  anchorLoop refTempAt60s rest (i + Z.of_nat n) st.
Proof.
  revert i. induction n as [|n IH]; intros i.
  - simpl. f_equal. lia.
  - cbn [repeat app anchorLoop anchorStep]. rewrite IH. f_equal. lia.
Qed.

Lemma anchorLoop_trailing_absent (refTempAt60s : float) (k : nat)
    (col : NumericColumn) (i : Z) (st : AnchorState) :
  anchorLoop refTempAt60s (col ++ repeat None k) i st =
  anchorLoop refTempAt60s col i st.
Proof.
  revert i st. induction col as [|temp col IH]; intros i st.
  - simpl. revert i. induction k as [|k IHk]; intros i; [reflexivity|].
    cbn [repeat anchorLoop anchorStep]. apply IHk.
  - simpl. apply IH.
Qed.

Lemma anchorStep_shift (refTempAt60s : float) (d i : Z) (st : AnchorState)
    (temp : option float) :
  0 <= i ->
  anchorStep refTempAt60s (shiftAnchor d st) (i + d) temp =
  shiftAnchor d (anchorStep refTempAt60s st i temp).
Proof.
  intros Hi. destruct temp as [t|]; simpl; [|reflexivity].
  destruct (distance t refTempAt60s <? minDiff st)%float; [|reflexivity].
  unfold shiftAnchor. simpl.
  destruct (Z.eqb_spec i (-1)); [lia|reflexivity].
Qed.

Lemma anchorLoop_shift (refTempAt60s : float) (d : Z) (col : NumericColumn)
    (i : Z) (st : AnchorState) :
  0 <= i ->
  anchorLoop refTempAt60s col (i + d) (shiftAnchor d st) =
  shiftAnchor d (anchorLoop refTempAt60s col i st).
Proof.
  revert i st. induction col as [|temp col IH]; intros i st Hi; simpl.
  - reflexivity.
  - rewrite anchorStep_shift by exact Hi.
    replace (i + d + 1) with (i + 1 + d) by lia.
    apply IH. lia.
Qed.

(** The anchor of a framed column is the anchor of the column, moved by
    the number of leading rows. *)
Lemma findAnchor_framed (n k : nat) (col : NumericColumn) (refTempAt60s : float) :
  findAnchor (framed n k col) refTempAt60s =
  if findAnchor col refTempAt60s =? -1 then -1
  else findAnchor col refTempAt60s + Z.of_nat n.
Proof.
  unfold findAnchor, framed.
  rewrite anchorLoop_skip_absent, anchorLoop_trailing_absent.
  change anchorInit with (shiftAnchor (Z.of_nat n) anchorInit) at 1.
  rewrite anchorLoop_shift by lia. reflexivity.
Qed.

Lemma findTimeLoop_skip_absent (a : Z) (targetTemp : float) (n : nat)
    (rest : NumericColumn) (i : Z) :
  findTimeLoop a targetTemp (repeat None n ++ rest) i =
  findTimeLoop a targetTemp rest (i + Z.of_nat n).
Proof.
  revert i. induction n as [|n IH]; intros i.
  - simpl. f_equal. lia.
  - cbn [repeat app findTimeLoop]. rewrite IH. f_equal. lia.
Qed.

Lemma findTimeLoop_trailing_absent (a : Z) (targetTemp : float) (k : nat)
    (col : NumericColumn) (i : Z) :
  findTimeLoop a targetTemp (col ++ repeat None k) i =
  findTimeLoop a targetTemp col i.
Proof.
  revert i. induction col as [|val col IH]; intros i.
  - simpl. revert i. induction k as [|k IHk]; intros i; [reflexivity|].
    cbn [repeat findTimeLoop]. apply IHk.
  - simpl. rewrite IH. reflexivity.
Qed.

Lemma findTimeLoop_shift (a d : Z) (targetTemp : float) (col : NumericColumn)
    (i : Z) :
  findTimeLoop (a + d) targetTemp col (i + d) = findTimeLoop a targetTemp col i.
Proof.
  revert i. induction col as [|val col IH]; intros i; simpl.
  - reflexivity.
  - replace (i + d + 1) with (i + 1 + d) by lia. rewrite IH.
    replace (getTimeForIndex (a + d) (i + d)) with (getTimeForIndex a i)
      by (unfold getTimeForIndex; lia).
    reflexivity.
Qed.

Lemma findTimeForTemp_framed (n k : nat) (col : NumericColumn) (a : Z)
    (targetTemp : float) :
  findTimeForTemp (framed n k col) (a + Z.of_nat n) targetTemp =
  findTimeForTemp col a targetTemp.
Proof.
  unfold findTimeForTemp, framed.
  rewrite findTimeLoop_skip_absent, findTimeLoop_trailing_absent.
  apply findTimeLoop_shift.
Qed.

Lemma at_index_framed (n k : nat) (col : NumericColumn) (idx : Z) :
  at_index (framed n k col) (idx + Z.of_nat n) =
  if (0 <=? idx) && (idx <? Z.of_nat (List.length col)) then at_index col idx
  else if (- Z.of_nat n <=? idx) && (idx <? Z.of_nat (List.length col + k))
       then Some None else None.
Proof.
  unfold framed, at_index.
  destruct (Z.leb_spec 0 idx) as [Hlo|Hlo]; simpl.
  - destruct (Z.ltb_spec (idx + Z.of_nat n) 0); [lia|].
    destruct (Z.ltb_spec idx 0); [lia|].
    rewrite nth_error_app2 by (rewrite repeat_length; lia).
    rewrite repeat_length.
    replace (Z.to_nat (idx + Z.of_nat n) - n)%nat with (Z.to_nat idx) by lia.
    destruct (Z.ltb_spec idx (Z.of_nat (List.length col))) as [Hhi|Hhi].
    + now rewrite nth_error_app1 by lia.
    + rewrite nth_error_app2 by lia.
      destruct (Z.leb_spec (- Z.of_nat n) idx); [simpl|lia].
      destruct (Z.ltb_spec idx (Z.of_nat (List.length col + k))).
      * apply nth_error_repeat. lia.
      * apply nth_error_None. rewrite repeat_length. lia.
  - destruct (Z.leb_spec (- Z.of_nat n) idx) as [Hn|Hn]; simpl.
    + destruct (Z.ltb_spec (idx + Z.of_nat n) 0); [lia|].
      destruct (Z.ltb_spec idx (Z.of_nat (List.length col + k))); [|lia].
      rewrite nth_error_app1 by (rewrite repeat_length; lia).
      apply nth_error_repeat. lia.
    + destruct (Z.ltb_spec (idx + Z.of_nat n) 0); [reflexivity|lia].
Qed.

Lemma findTempAtTime_framed (n k : nat) (col : NumericColumn) (a targetTime : Z) :
  findTempAtTime (framed n k col) (a + Z.of_nat n) targetTime =
  findTempAtTime col a targetTime.
Proof.
  unfold findTempAtTime, getIndexForTime.
  replace (a + Z.of_nat n + (targetTime - 60))
    with (a + (targetTime - 60) + Z.of_nat n) by lia.
  set (idx := a + (targetTime - 60)).
  rewrite at_index_framed.
  assert (Hlen : Z.of_nat (List.length (framed n k col)) =
                 Z.of_nat n + Z.of_nat (List.length col) + Z.of_nat k).
  { unfold framed. rewrite !length_app, !repeat_length. lia. }
  rewrite Hlen.
  destruct (Z.leb_spec 0 idx) as [Hlo|Hlo];
    destruct (Z.ltb_spec idx (Z.of_nat (List.length col))) as [Hhi|Hhi]; simpl.
  - destruct (Z.leb_spec 0 (idx + Z.of_nat n)); [|lia].
    destruct (Z.ltb_spec (idx + Z.of_nat n)
                (Z.of_nat n + Z.of_nat (List.length col) + Z.of_nat k)); [|lia].
    reflexivity.
  - destruct ((0 <=? idx + Z.of_nat n) &&
              (idx + Z.of_nat n <? Z.of_nat n + Z.of_nat (List.length col) + Z.of_nat k));
      [|reflexivity].
    now destruct ((- Z.of_nat n <=? idx) && (idx <? Z.of_nat (List.length col + k))).
  - destruct ((0 <=? idx + Z.of_nat n) &&
              (idx + Z.of_nat n <? Z.of_nat n + Z.of_nat (List.length col) + Z.of_nat k));
      [|reflexivity].
    now destruct ((- Z.of_nat n <=? idx) && (idx <? Z.of_nat (List.length col + k))).
  - destruct ((0 <=? idx + Z.of_nat n) &&
              (idx + Z.of_nat n <? Z.of_nat n + Z.of_nat (List.length col) + Z.of_nat k));
      [|reflexivity].
    now destruct ((- Z.of_nat n <=? idx) && (idx <? Z.of_nat (List.length col + k))).
Qed.

(** Rows without a number above and below the samples (header rows, blank
    rows at the end) change nothing: the call fails or succeeds as on the
    samples alone, and a returned record has the same eight metrics.  Only
    the anchor index moves, by the number of leading rows. *)
Theorem absent_rows_around_samples (n k : nat) (col : NumericColumn)
    (refTempAt60s : float) :
  processThermalData (framed n k col) refTempAt60s =
  processThermalData col refTempAt60s.
Proof.
  unfold processThermalData. rewrite findAnchor_framed.
  destruct (Z.eqb_spec (findAnchor col refTempAt60s) (-1)) as [E|E].
  - reflexivity.
  - destruct (findAnchor_present _ _ E) as [v Hv].
    apply at_index_range in Hv.
    destruct (Z.eqb_spec (findAnchor col refTempAt60s + Z.of_nat n) (-1)); [lia|].
    now rewrite !findTimeForTemp_framed, !findTempAtTime_framed.
Qed.

(** ** Rounding never produces NaN *)

Module Rounding.

Lemma shr_1_nonneg (mrs : shr_record) : 0 <= shr_m mrs -> 0 <= shr_m (shr_1 mrs).
Proof.
  destruct mrs as [m r s]. simpl.
  destruct m as [|p|p]; [simpl; lia| |lia].
  intros _. destruct p; simpl; lia.
Qed.

Lemma iter_shr_1_nonneg (p : positive) (mrs : shr_record) :
  0 <= shr_m mrs -> 0 <= shr_m (iter_pos shr_1 p mrs).
Proof.
  revert mrs. induction p as [p IH|p IH|]; intros mrs H; simpl.
  - apply IH, IH, shr_1_nonneg, H.
  - apply IH, IH, H.
  - apply shr_1_nonneg, H.
Qed.

Lemma shr_nonneg (mrs : shr_record) (e n : Z) :
  0 <= shr_m mrs -> 0 <= shr_m (fst (shr mrs e n)).
Proof.
  intros H. destruct n; simpl; try exact H. now apply iter_shr_1_nonneg.
Qed.

Lemma shr_fexp_nonneg (prec emax m e : Z) (l : location) :
  0 <= m -> 0 <= shr_m (fst (shr_fexp prec emax m e l)).
Proof.
  intros H. unfold shr_fexp. apply shr_nonneg.
  destruct l as [|[ | | ]]; exact H.
Qed.

Lemma round_nearest_even_nonneg (m : Z) (l : location) :
  0 <= m -> 0 <= round_nearest_even m l.
Proof.
  intros H. destruct l as [|[ | | ]]; simpl; try lia.
  destruct (Z.even m); lia.
Qed.

Lemma binary_round_aux_not_nan (prec emax : Z) (sx : bool) (mx ex : Z)
    (lx : location) :
  0 <= mx -> binary_round_aux prec emax sx mx ex lx <> S754_nan.
Proof.
  intros H. unfold binary_round_aux.
  pose proof (shr_fexp_nonneg prec emax mx ex lx H) as H1.
  destruct (shr_fexp prec emax mx ex lx) as [mrs' e']. simpl in H1.
  pose proof (shr_fexp_nonneg prec emax _ e' loc_Exact
                (round_nearest_even_nonneg _ (loc_of_shr_record mrs') H1)) as H2.
  destruct (shr_fexp prec emax
              (round_nearest_even (shr_m mrs') (loc_of_shr_record mrs')) e' loc_Exact)
    as [mrs'' e'']. simpl in H2.
  destruct (shr_m mrs'') as [|p|p]; [discriminate| |lia].
  destruct (e'' <=? emax - prec); discriminate.
Qed.

Lemma binary_normalize_not_nan (prec emax m e : Z) (szero : bool) :
  binary_normalize prec emax m e szero <> S754_nan.
Proof.
  unfold binary_normalize, binary_round.
  destruct m as [|p|p]; [discriminate| |].
  - destruct (shl_align p e _) as [mz ez]. apply binary_round_aux_not_nan. lia.
  - destruct (shl_align p e _) as [mz ez]. apply binary_round_aux_not_nan. lia.
Qed.

Lemma SFsub_not_nan (prec emax : Z) (x y : spec_float) :
  x <> S754_nan -> finiteSF y = true -> SFsub prec emax x y <> S754_nan.
Proof.
  intros Hx Hy. destruct x as [sx|sx| |sx mx ex]; [| |contradiction|];
    destruct y as [sy|sy| |sy my ey]; try discriminate; simpl.
  - destruct sx, sy; discriminate.
  - apply binary_normalize_not_nan.
Qed.

Lemma SFltb_abs_sub_finite (prec emax : Z) (x y z : spec_float) :
  SFltb (SFabs (SFsub prec emax x y)) z = true -> finiteSF y = true.
Proof.
  destruct y as [sy|sy| |sy my ey]; try reflexivity.
  - destruct x as [sx|sx| |sx mx ex]; simpl;
      try (destruct sx, sy); destruct z as [sz|sz| |sz mz ez];
      try destruct sz; simpl; discriminate.
  - destruct x; simpl; discriminate.
Qed.
End Rounding.

Lemma SFeqb_refl_not_nan (x : spec_float) : SFeqb x x = true <-> x <> S754_nan.
Proof.
  split.
  - intros H ->. discriminate.
  - intros H. destruct x; try contradiction; FloatOrder.sf_order.
Qed.

Lemma isNaN_false_iff (x : float) : Js.isNaN x = false <-> Prim2SF x <> S754_nan.
Proof.
  unfold Js.isNaN. rewrite FloatAxioms.eqb_spec, negb_false_iff.
  apply SFeqb_refl_not_nan.
Qed.

Lemma SFleb_false_ltb (x y : spec_float) :
  x <> S754_nan -> y <> S754_nan -> SFleb x y = false -> SFltb y x = true.
Proof.
  intros Hx Hy. destruct x, y; try contradiction; FloatOrder.sf_order.
Qed.

(** The distance of a number that is not NaN to a finite reference is not
    NaN. *)
Lemma distance_not_NaN (w refTempAt60s : float) :
  Js.isNaN w = false -> finiteSF (Prim2SF refTempAt60s) = true ->
  Js.isNaN (distance w refTempAt60s) = false.
Proof.
  rewrite !isNaN_false_iff. intros Hw Href. unfold distance.
  rewrite FloatAxioms.abs_spec, FloatAxioms.sub_spec.
  pose proof (Rounding.SFsub_not_nan prec emax _ _ Hw Href) as H.
  unfold SF64sub. destruct (SFsub prec emax (Prim2SF w) (Prim2SF refTempAt60s));
    try discriminate. contradiction.
Qed.

(** A distance below some bound at all means a finite reference. *)
Lemma distance_ltb_finite_reference (w refTempAt60s bound : float) :
  (distance w refTempAt60s <? bound)%float = true ->
  finiteSF (Prim2SF refTempAt60s) = true.
Proof.
  unfold distance.
  rewrite FloatAxioms.ltb_spec, FloatAxioms.abs_spec, FloatAxioms.sub_spec.
  apply Rounding.SFltb_abs_sub_finite.
Qed.

Lemma anchor_closest_if_no_NaN (tempData : NumericColumn) (refTempAt60s : float) :
  (forall j w, present tempData j w -> Js.isNaN w = false) ->
  findAnchor tempData refTempAt60s <> -1 ->
  ClosestEarliest tempData refTempAt60s (findAnchor tempData refTempAt60s).
Proof.
  intros Hnan Hne. unfold findAnchor in *.
  destruct (AnchorInv_final refTempAt60s tempData)
    as [(Ha & _)|(v & Hv & _ & Hmax & Hmin & Hearly)]; [contradiction|].
  pose proof (distance_ltb_finite_reference _ _ _ Hmax) as Href.
  assert (Hd : forall j w, present tempData j w ->
            Js.isNaN (distance w refTempAt60s) = false).
  { intros j w Hw. apply distance_not_NaN; [now apply (Hnan j)|exact Href]. }
  exists v. split; [exact Hv|]. split.
  - intros j w Hw. apply FloatOrder.ltb_false_leb;
      [now apply (Hd j)|now apply (Hd _ _ Hv)|now apply (Hmin j)].
  - intros j w Hj Hw. rewrite FloatAxioms.ltb_spec.
    apply SFleb_false_ltb.
    + apply isNaN_false_iff. now apply (Hd j).
    + apply isNaN_false_iff. now apply (Hd _ _ Hv).
    + rewrite <- FloatAxioms.leb_spec. now apply (Hearly j).
Qed.

Lemma coerceRow_not_NaN (numberToString : float -> string)
    (parseFloatString : string -> float) (colIndex : Z) (row : Row) (v : float) :
  coerceRow numberToString parseFloatString colIndex row = Some v ->
  Js.isNaN v = false.
Proof.
  unfold coerceRow.
  destruct (Js.isNaN (parseFloat numberToString parseFloatString
                        (cellAt row colIndex))) eqn:E; [discriminate|].
  intros H. now injection H as <-.
Qed.

Lemma readExcelColumn_present (numberToString : float -> string)
    (parseFloatString : string -> float) (jsonData : Grid) (colIndex : Z)
    (j : Z) (w : float) :
  present (readExcelColumn numberToString parseFloatString jsonData colIndex) j w ->
  exists row, at_index jsonData j = Some row /\
    coerceRow numberToString parseFloatString colIndex row = Some w.
Proof.
  unfold present, readExcelColumn, at_index.
  destruct (j <? 0); [discriminate|].
  rewrite nth_error_map.
  destruct (nth_error jsonData (Z.to_nat j)) as [row|]; [|discriminate].
  simpl. intros H. injection H as H. now exists row.
Qed.

(** The reader never hands NaN on: an entry of the extracted column is the
    absent marker or a number that is not NaN, and a number only where the
    row has a cell at the column index. *)
Theorem readExcelColumn_numbers_are_not_NaN (numberToString : float -> string)
    (parseFloatString : string -> float) (jsonData : Grid) (colIndex : Z)
    (j : Z) (w : float) :
  present (readExcelColumn numberToString parseFloatString jsonData colIndex) j w ->
  Js.isNaN w = false /\
  exists row c, at_index jsonData j = Some row /\ at_index row colIndex = Some c /\
    w = parseFloat numberToString parseFloatString c.
Proof.
  intros H. apply readExcelColumn_present in H. destruct H as (row & Hrow & Hc).
  split; [exact (coerceRow_not_NaN _ _ _ _ _ Hc)|].
  unfold coerceRow, cellAt in Hc.
  destruct (at_index row colIndex) as [c|] eqn:E.
  - exists row, c. split; [exact Hrow|]. split; [exact E|].
    destruct (Js.isNaN _); [discriminate|]. now injection Hc as <-.
  - simpl in Hc. discriminate.
Qed.

Lemma readExcelColumn_numbers_are_not_NaN_witness :
  Js.isNaN 21.5%float = false.
Proof.
  exact (proj1 (readExcelColumn_numbers_are_not_NaN (fun _ => EmptyString)
    (fun _ => 21.5%float) [[CNull; CStr "21.5"]] 1 0 21.5%float eq_refl)).
Defined.

(** On a column whose numbers are not NaN, and so on every column that the
    reader extracts, a call of [processThermalData] that returns has put
    second 60 on a closest row, the earliest of the closest: no number of
    the column is nearer to the reference than the anchor's, and every
    number above the anchor is strictly farther. *)
Theorem anchor_is_closest_on_extracted_column :
  (forall (tempData : NumericColumn) (refTempAt60s : float) (m : ThermalMetrics),
     (forall j w, present tempData j w -> Js.isNaN w = false) ->
     processThermalData tempData refTempAt60s = Returned m ->
     ClosestEarliest tempData refTempAt60s (findAnchor tempData refTempAt60s)) /\
  (forall (numberToString : float -> string) (parseFloatString : string -> float)
          (jsonData : Grid) (colIndex : Z) (refTempAt60s : float)
          (m : ThermalMetrics),
     let column := readExcelColumn numberToString parseFloatString jsonData colIndex in
     processThermalData column refTempAt60s = Returned m ->
     ClosestEarliest column refTempAt60s (findAnchor column refTempAt60s)).
Proof.
  split.
  - intros tempData refTempAt60s m Hnan Hm.
    apply processThermalData_returned in Hm.
    apply anchor_closest_if_no_NaN; [exact Hnan|exact (proj1 Hm)].
  - intros numberToString parseFloatString jsonData colIndex refTempAt60s m column Hm.
    apply processThermalData_returned in Hm.
    apply anchor_closest_if_no_NaN; [|exact (proj1 Hm)].
    intros j w Hw. apply readExcelColumn_present in Hw.
    destruct Hw as (row & _ & Hc). exact (coerceRow_not_NaN _ _ _ _ _ Hc).
Qed.

Lemma anchor_is_closest_on_extracted_column_witness :
  ClosestEarliest exampleAnchorColumn 19%float 2.
Proof.
  refine (proj1 anchor_is_closest_on_extracted_column exampleAnchorColumn
            19%float _ _ eq_refl).
  intros j w H. unfold present, exampleAnchorColumn, at_index in H.
  destruct (j <? 0); [discriminate|].
  destruct (Z.to_nat j) as [|[|[|[|[|n]]]]]; simpl in H;
    try discriminate; try (injection H as <-; reflexivity).
  destruct n; discriminate.
Defined.

(** * Further properties of the physical properties *)

Lemma degenerate_zeroOrNaN (x : float) : degenerate x -> zeroOrNaN x.
Proof.
  intros [H|H]; [now apply eqb_zero_zeroOrNaN|].
  right. destruct (Prim2SF x) eqn:E; try reflexivity;
    exfalso; assert (Hn : Js.isNaN x = false)
      by (apply isNaN_false_iff; rewrite E; discriminate);
    rewrite Hn in H; discriminate.
Qed.

Lemma mul_zeroOrNaN_r (a b : float) : zeroOrNaN b -> zeroOrNaN (a * b)%float.
Proof.
  unfold zeroOrNaN. rewrite FloatAxioms.mul_spec. unfold SF64mul.
  intros [[s ->]| ->]; destruct (Prim2SF a); simpl; eauto.
Qed.

Lemma div_zeroOrNaN_thousand (a : float) :
  zeroOrNaN a -> zeroOrNaN (a / 1000)%float.
Proof.
  unfold zeroOrNaN. rewrite FloatAxioms.div_spec. unfold SF64div.
  change (Prim2SF 1000) with (S754_finite false 8796093022208000 (-43)).
  intros [[s ->]| ->]; simpl; eauto.
Qed.

(** A dimension that is zero or NaN never shows up as an infinite or NaN
    property: a degenerate width or length gives areal weight 0 and density
    0, and a degenerate thickness gives density 0, whatever the weight. *)
Theorem degenerate_dimension_gives_zero (inputs : Types.PhysicalInputs) :
  (degenerate (Types.width inputs) \/ degenerate (Types.length inputs) ->
     Types.weightGsm (calculatePhysicalProperties inputs) = 0%float /\
     Types.density (calculatePhysicalProperties inputs) = 0%float) /\
  (degenerate (Types.thickness inputs) ->
     Types.density (calculatePhysicalProperties inputs) = 0%float).
Proof.
  unfold calculatePhysicalProperties. simpl. split.
  - intros H.
    assert (Harea : zeroOrNaN (areaM2 inputs)).
    { unfold areaM2. apply div_zeroOrNaN_million.
      destruct H as [H|H]; apply degenerate_zeroOrNaN in H;
        [now apply mul_zeroOrNaN_l|now apply mul_zeroOrNaN_r]. }
    rewrite (gtb_zeroOrNaN _ Harea).
    assert (Hvol : zeroOrNaN (volumeM3 inputs))
      by (unfold volumeM3; now apply mul_zeroOrNaN_l).
    rewrite (gtb_zeroOrNaN _ Hvol). now split.
  - intros H. apply degenerate_zeroOrNaN in H.
    assert (Hvol : zeroOrNaN (volumeM3 inputs)).
    { unfold volumeM3, thicknessM.
      now apply mul_zeroOrNaN_r, div_zeroOrNaN_thousand. }
    now rewrite (gtb_zeroOrNaN _ Hvol).
Qed.

Lemma degenerate_dimension_gives_zero_witness :
  (Types.weightGsm (calculatePhysicalProperties (measurements 1 500 1000 nan))
     = 0%float /\
   Types.density (calculatePhysicalProperties (measurements 1 500 1000 nan))
     = 0%float) /\
  Types.density (calculatePhysicalProperties (measurements (-0) 500 1000 1000))
    = 0%float.
Proof.
  split.
  - apply (degenerate_dimension_gives_zero (measurements 1 500 1000 nan)).
    right. right. reflexivity.
  - apply (degenerate_dimension_gives_zero (measurements (-0) 500 1000 1000)).
    left. reflexivity.
Defined.

(** * Further properties of the template merge *)




(** * The application *)

(** ** The name of the report *)

Lemma string_length_append (s t : string) :
  String.length (s ++ t) = (String.length s + String.length t)%nat.
Proof. induction s as [|c s IH]; simpl; [reflexivity|now rewrite IH]. Qed.

Lemma toStringFuel_S (fuel n : nat) :
  JsString.toStringFuel (S fuel) n =
  if (n <? 10)%nat then String (JsString.digitChar n) EmptyString
  else (JsString.toStringFuel fuel (n / 10) ++
        String (JsString.digitChar (n mod 10)) EmptyString)%string.
Proof. reflexivity. Qed.

Lemma toStringFuel_digit (fuel n : nat) :
  (n < 10)%nat ->
  JsString.toStringFuel (S fuel) n = String (JsString.digitChar n) EmptyString.
Proof.
  intros H. rewrite toStringFuel_S.
  destruct (Nat.ltb_spec n 10); [reflexivity|lia].
Qed.

Lemma toStringFuel_last (fuel n : nat) :
  exists q, JsString.toStringFuel (S fuel) n =
            (q ++ String (JsString.digitChar (n mod 10)) EmptyString)%string.
Proof.
  rewrite toStringFuel_S. destruct (Nat.ltb_spec n 10) as [Hlt|Hge].
  - exists EmptyString. cbn [String.append]. now rewrite Nat.mod_small.
  - eexists. reflexivity.
Qed.

Lemma mod_100_digits (n : nat) :
  ((n mod 100) / 10 = (n / 10) mod 10 /\ (n mod 100) mod 10 = n mod 10)%nat.
Proof.
  pose proof (Nat.div_mod_eq n 100). pose proof (Nat.div_mod_eq (n mod 100) 10).
  pose proof (Nat.div_mod_eq n 10). pose proof (Nat.div_mod_eq (n / 10) 10).
  pose proof (Nat.mod_upper_bound n 100). pose proof (Nat.mod_upper_bound (n mod 100) 10).
  pose proof (Nat.mod_upper_bound n 10). pose proof (Nat.mod_upper_bound (n / 10) 10).
  lia.
Qed.

Lemma string_append_assoc (s t u : string) :
  ((s ++ t) ++ u = s ++ (t ++ u))%string.
Proof. induction s as [|c s IH]; simpl; [reflexivity|now rewrite IH]. Qed.

(** From 10 on, the print of a number ends with its last two digits. *)
Lemma toString_last_two (n : nat) :
  (10 <= n)%nat ->
  exists q, JsString.toString n = (q ++ twoDigits (n mod 100))%string.
Proof.
  intros Hn. unfold JsString.toString.
  destruct n as [|n]; [lia|].
  rewrite toStringFuel_S.
  destruct (Nat.ltb_spec (S n) 10) as [Hlt|_]; [lia|].
  destruct (toStringFuel_last n (S n / 10)) as [q Hq].
  exists q. rewrite Hq, string_append_assoc. unfold twoDigits.
  destruct (mod_100_digits (S n)) as [-> ->]. reflexivity.
Qed.

(** Below 100, the print padded to two characters is the two digits. *)
Lemma padStart2_toString (n : nat) :
  (n < 100)%nat -> JsString.padStart2 (JsString.toString n) = twoDigits n.
Proof.
  intros Hn. unfold JsString.toString.
  destruct (Nat.lt_ge_cases n 10) as [Hlt|Hge].
  - rewrite toStringFuel_digit by exact Hlt. unfold JsString.padStart2, twoDigits.
    simpl String.length. cbv iota.
    now rewrite Nat.div_small, Nat.mod_small by exact Hlt.
  - destruct n as [|n]; [lia|].
    rewrite toStringFuel_S.
    destruct (Nat.ltb_spec (S n) 10) as [Hlt|_]; [lia|].
    rewrite toStringFuel_digit.
    2:{ pose proof (Nat.div_mod_eq (S n) 10). lia. }
    reflexivity.
Qed.

Lemma sliceLast2_append (q : string) (c1 c2 : Ascii.ascii) :
  JsString.sliceLast2 (q ++ String c1 (String c2 EmptyString)) =
  String c1 (String c2 EmptyString).
Proof.
  unfold JsString.sliceLast2. induction q as [|c q IH].
  - reflexivity.
  - cbn [String.append String.length].
    rewrite string_length_append in *. cbn [String.length] in *.
    replace (S (String.length q + 2) - 2)%nat
      with (S (String.length q + 2 - 2))%nat by lia.
    cbn [substring]. exact IH.
Qed.

(** For a day of a year from 10 on, the name of the report is the prefix,
    six digits, and the extension: the last two digits of the year, the
    month counted from 1 on two digits, and the day on two digits. *)
Theorem report_name_has_six_digit_date (now : App.Today) :
  (10 <= App.getFullYear now)%nat ->
  (App.getMonth now <= 11)%nat ->
  (App.getDate now <= 31)%nat ->
  App.newFilenameOf now =
  (App.reportPrefix ++ twoDigits (App.getFullYear now mod 100) ++
   twoDigits (App.getMonth now + 1) ++ twoDigits (App.getDate now) ++ ".xlsx")%string.
Proof.
  intros Hy Hm Hd. unfold App.newFilenameOf.
  destruct (toString_last_two _ Hy) as [q ->].
  unfold twoDigits at 1. rewrite sliceLast2_append.
  rewrite !padStart2_toString by lia. reflexivity.
Qed.

Lemma report_name_has_six_digit_date_witness :
  App.newFilenameOf
    {| App.getFullYear := 2026; App.getMonth := 10; App.getDate := 3 |} =
  (App.reportPrefix ++ "261103.xlsx")%string.
Proof.
  apply (report_name_has_six_digit_date
           {| App.getFullYear := 2026; App.getMonth := 10; App.getDate := 3 |});
    simpl; lia.
Defined.

(** ** The file box *)

Lemma FileUpload_handle_sync (st : FileUpload.State) (e : FileUpload.Event)
    (selected : option File) :
  FileUpload.file st = selected ->
  FileUpload.file (fst (FileUpload.handle st e)) =
  FileUpload.notify selected (snd (FileUpload.handle st e)).
Proof.
  intros H. destruct e as [files|files| | |]; simpl; try exact H.
  - unfold FileUpload.handleFileChange.
    destruct (FileUpload.firstFile files); simpl; [reflexivity|exact H].
  - unfold FileUpload.handleDrop.
    destruct (FileUpload.firstFile files); simpl; [reflexivity|exact H].
  - reflexivity.
Qed.

(** Whatever is chosen, dropped, cleared or dragged over the box, in any
    order, the file the box shows is the file its owner was last told of:
    the two never disagree; an empty choice or an empty drop changes no
    file and tells the owner nothing. *)
Theorem upload_box_agrees_with_owner (events : list FileUpload.Event) :
  FileUpload.file (fst (FileUpload.run events FileUpload.initial None)) =
  snd (FileUpload.run events FileUpload.initial None) /\
  (forall st, FileUpload.handleFileChange st [] = (st, [])) /\
  (forall st, FileUpload.file (fst (FileUpload.handleDrop st [])) = FileUpload.file st /\
              snd (FileUpload.handleDrop st []) = []).
Proof.
  split; [|split; [reflexivity|split; reflexivity]].
  assert (H : forall st selected, FileUpload.file st = selected ->
            FileUpload.file (fst (FileUpload.run events st selected)) =
            snd (FileUpload.run events st selected)).
  { induction events as [|e events IH]; intros st selected Hs; simpl.
    - exact Hs.
    - pose proof (FileUpload_handle_sync st e selected Hs) as Hstep.
      destruct (FileUpload.handle st e) as [st' calls]. now apply IH. }
  now apply H.
Qed.

(** ** A run of the analysis *)

Section RunProperties.

Variable sheetOf : File -> Outcome Grid.
Variable numberToString : float -> string.
Variable parseFloatString : string -> float.
Variable toFixed2 : float -> float.
Variable urlOf : File -> SheetData -> string.
Variable now : App.Today.

Local Abbreviation handleProcess :=
  (App.handleProcess sheetOf numberToString parseFloatString toFixed2 urlOf now).
Local Abbreviation validate := (App.validate parseFloatString).

Lemma validate_passed (st : App.State) :
  validate st = None ->
  exists source template,
    App.sourceFile st = Some source /\ App.templateFile st = Some template /\
    Js.isNaN (parseFloatString (App.refTemp st)) = false.
Proof.
  unfold App.validate.
  destruct (App.sourceFile st) as [source|]; [|discriminate].
  destruct (App.templateFile st) as [template|]; [|discriminate].
  destruct (_ || _); [discriminate|].
  simpl. destruct (Js.isNaN (parseFloatString (App.refTemp st))); [discriminate|].
  intros _. now exists source, template.
Qed.

Lemma handleProcess_started (st : App.State) (source template : File) :
  validate st = None ->
  App.sourceFile st = Some source -> App.templateFile st = Some template ->
  handleProcess st =
  App.process sheetOf numberToString parseFloatString toFixed2 urlOf now
    (App.withProcessing st App.PROCESSING None None) source template.
Proof.
  intros Hv Hs Ht. unfold App.handleProcess. now rewrite Hv, Hs, Ht.
Qed.

(** A failed validation is silent unless an error is already on display.
    The click sets the message and nothing else: status and result stay as
    they were, so a result of an earlier run stays on the page, and the
    message, rendered under the status ERROR only, is not shown.  On the
    page as loaded, a click without files shows nothing. *)
Theorem failed_validation_shows_no_message (st : App.State) (msg : string) :
  validate st = Some msg ->
  App.status (handleProcess st) = App.status st /\
  App.result (handleProcess st) = App.result st /\
  App.errorMsg (handleProcess st) = Some msg /\
  App.renderedResult (handleProcess st) = App.renderedResult st /\
  (App.status st <> App.ERROR -> App.renderedError (handleProcess st) = None).
Proof.
  intros Hv. unfold App.handleProcess. rewrite Hv.
  unfold App.setErrorMsg, App.renderedResult, App.renderedError. simpl.
  repeat split. intros Hs. destruct (App.status st); try reflexivity.
  contradiction.
Qed.


(** A log without a number in its fourth column ends the run with the
    anchor error, whatever the template file is: when no row of the sheet
    has, at column index 3, a cell that parses to a number, a run that
    passes validation ends in the status ERROR with the message of the
    anchor search, and the result of any earlier run is cleared. *)
Theorem log_without_numbers_is_an_anchor_error (st : App.State)
    (source : File) (jsonData : Grid) :
  validate st = None ->
  App.sourceFile st = Some source ->
  sheetOf source = Returned jsonData ->
  (forall row, In row jsonData ->
     Js.isNaN (parseFloat numberToString parseFloatString
                 (cellAt row defaultColIndex)) = true) ->
  App.status (handleProcess st) = App.ERROR /\
  App.errorMsg (handleProcess st) = Some anchorNotFoundMessage /\
  App.result (handleProcess st) = None /\
  App.renderedError (handleProcess st) = Some anchorNotFoundMessage.
Proof.
  intros Hv Hs Hsheet Hrows.
  destruct (validate_passed st Hv) as (source' & template & Hs' & Ht & _).
  rewrite Hs in Hs'. injection Hs' as <-.
  rewrite (handleProcess_started st source template Hv Hs Ht).
  unfold App.process, App.readSourceColumn. rewrite Hsheet.
  assert (Hthrow : processThermalData
            (readExcelColumn numberToString parseFloatString jsonData defaultColIndex)
            (parseFloatString (App.refTemp (App.withProcessing st App.PROCESSING None None)))
            = Thrown anchorNotFoundMessage).
  { apply processThermalData_thrown_iff, findAnchor_none_iff.
    intros j w Hw. exfalso.
    apply readExcelColumn_present in Hw. destruct Hw as (row & Hrow & Hc).
    unfold at_index in Hrow. destruct (j <? 0); [discriminate|].
    apply nth_error_In in Hrow. specialize (Hrows row Hrow).
    unfold coerceRow in Hc. rewrite Hrows in Hc. discriminate. }
  rewrite Hthrow. unfold App.failed, App.renderedError. simpl. now repeat split.
Qed.


(** Between runs the processing state is never half done: the status is
    never left at PROCESSING, a result is held exactly under the status
    SUCCESS (so a run that ends in an error exposes no result, and the
    result panel of a success is never empty), and under the status ERROR
    there is a message to show. *)
Theorem processing_state_is_consistent (st : App.State) :
  Reachable st ->
  App.status st <> App.PROCESSING /\
  (App.result st <> None <-> App.status st = App.SUCCESS) /\
  (App.status st = App.ERROR -> App.errorMsg st <> None).
Proof.
  induction 1 as [d|st st' _ IH (Hs & Hr & He)
                 |sheetOf' nts pfs tf urlOf' now' st _ IH].
  - simpl. repeat split; try discriminate. intros H. now contradiction H.
  - rewrite Hs, Hr, He. exact IH.
  - unfold App.handleProcess.
    destruct (App.validate pfs st) as [msg|] eqn:Hv.
    + unfold App.setErrorMsg. simpl. destruct IH as (Hp & Hres & _).
      repeat split; try assumption; try apply Hres. discriminate.
    + destruct (App.sourceFile st) as [source|].
      2:{ unfold App.setErrorMsg. simpl. destruct IH as (Hp & Hres & _).
          repeat split; try assumption; try apply Hres. discriminate. }
      destruct (App.templateFile st) as [template|].
      2:{ unfold App.setErrorMsg. simpl. destruct IH as (Hp & Hres & _).
          repeat split; try assumption; try apply Hres. discriminate. }
      unfold App.process.
      destruct (App.readSourceColumn sheetOf' nts pfs source) as [tempData|m1];
        [|unfold App.failed; simpl; repeat split; try discriminate;
          intros H; now contradiction H].
      destruct (processThermalData tempData _) as [metrics|m2];
        [|unfold App.failed; simpl; repeat split; try discriminate;
          intros H; now contradiction H].
      destruct (App.writeReport sheetOf' tf urlOf' template _ metrics _ _)
        as [url|m3];
        [|unfold App.failed; simpl; repeat split; try discriminate;
          intros H; now contradiction H].
      simpl. repeat split; try discriminate.
Qed.

End RunProperties.

Lemma failed_validation_shows_no_message_witness :
  let st := App.handleProcess (fun _ => Returned exampleSheet) examplePrint
              exampleParse (fun x => x) (fun _ _ => EmptyString) exampleToday
              (App.initial EmptyString) in
  App.errorMsg st = Some App.missingFilesMessage /\ App.renderedError st = None.
Proof.
  cbv zeta.
  destruct (failed_validation_shows_no_message (fun _ => Returned exampleSheet)
              examplePrint exampleParse (fun x => x) (fun _ _ => EmptyString)
              exampleToday (App.initial EmptyString) App.missingFilesMessage eq_refl)
    as (_ & _ & Hmsg & _ & Hshown).
  split; [exact Hmsg|]. apply Hshown. discriminate.
Defined.

Lemma log_without_numbers_is_an_anchor_error_witness :
  App.renderedError
    (App.handleProcess (fun _ => Returned [[CStr "t"]; [CNum 1%float]])
       examplePrint exampleParse (fun x => x) (fun _ _ => EmptyString)
       exampleToday exampleForm) = Some anchorNotFoundMessage.
Proof.
  refine (proj2 (proj2 (proj2
    (log_without_numbers_is_an_anchor_error
       (fun _ => Returned [[CStr "t"]; [CNum 1%float]]) examplePrint exampleParse
       (fun x => x) (fun _ _ => EmptyString) exampleToday exampleForm exampleFile
       [[CStr "t"]; [CNum 1%float]] eq_refl eq_refl eq_refl _)))).
  intros row [<-|[<-|[]]]; reflexivity.
Defined.


Lemma processing_state_is_consistent_witness :
  App.status
    (App.handleProcess (fun _ => Thrown EmptyString) examplePrint exampleParse
       (fun x => x) (fun _ _ => EmptyString) exampleToday exampleForm)
  <> App.PROCESSING.
Proof.
  apply (processing_state_is_consistent _).
  apply reach_run. apply (reach_edit (App.initial "2026-11-03")).
  - apply reach_initial.
  - repeat split.
Defined.
